(** * Weather dashboard ([script.js]): shallow embedding and verified properties

    The controller of the page is embedded function by function.  Values
    that JavaScript leaves dynamically typed are given the type the
    forecast and geocoding payloads have; [undefined] (an array read past
    the end) and [NaN] are [None].  Strings are sequences of code units
    below 256.  What the browser supplies ([Date], locale formatting,
    number printing, URI encoding) is an interface, [Host]; the wall clock
    and the network are explicit inputs. *)

From Stdlib Require Import ZArith QArith Qround String Ascii List Bool Lia DecimalString.
Import ListNotations.

Open Scope string_scope.
Open Scope Z_scope.

(** ** The fragment of JavaScript the controller relies on *)

Module JS.

(** [a[i]]: [undefined] outside the array. *)
Definition lookup {A : Type} (a : list A) (i : Z) : option A :=
  if i <? 0 then None else nth_error a (Z.to_nat i).

(** Truthiness of a number and of a string-or-undefined. *)
Definition truthy (n : Z) : bool := negb (n =? 0).

Definition truthy_str (s : option string) : bool :=
  match s with
  | Some s => negb (s =? "")%string
  | None => false
  end.

(** Comparisons of a number-or-undefined with a literal: every
    comparison with [undefined] or [NaN] is false. *)
Definition num_cmp (f : Z -> Z -> bool) (a : option Z) (k : Z) : bool :=
  match a with
  | Some n => f n k
  | None => false
  end.

Definition num_sub (a : option Z) (k : Z) : option Z := option_map (fun n => n - k) a.

(** [Math.round]: the nearest integer, ties towards plus infinity. *)
Definition Math_round (x : option Q) : option Z :=
  option_map (fun q => Qfloor (q + (1 # 2))%Q) x.

(** An integer-valued number in a template literal. *)
Definition Z_to_string (n : Z) : string := NilEmpty.string_of_int (Z.to_int n).

Definition int_to_string (n : option Z) : string :=
  match n with
  | Some n => Z_to_string n
  | None => "NaN"
  end.

(** [a || b] on strings-or-undefined. *)
Definition or_else (a b : option string) : option string :=
  if truthy_str a then a else b.

Definition or_default (a : option string) (b : string) : string :=
  match or_else a (Some b) with
  | Some s => s
  | None => b
  end.

(** [String.prototype.startsWith]; an [undefined] argument is the text
    "undefined". *)
Definition startsWith (s : string) (p : option string) : bool :=
  String.prefix (match p with Some p => p | None => "undefined" end) s.

(** [String.prototype.trim]: the white space and line terminators among
    the code units below 256. *)
Definition is_space (c : ascii) : bool :=
  let n := Z.of_nat (nat_of_ascii c) in
  ((9 <=? n) && (n <=? 13)) || (n =? 32) || (n =? 160).

Fixpoint trimStart (s : string) : string :=
  match s with
  | EmptyString => EmptyString
  | String c s' => if is_space c then trimStart s' else s
  end.

Fixpoint trimEnd (s : string) : string :=
  match s with
  | EmptyString => EmptyString
  | String c s' =>
      match trimEnd s' with
      | EmptyString => if is_space c then EmptyString else String c EmptyString
      | t => String c t
      end
  end.

Definition trim (s : string) : string := trimEnd (trimStart s).

(** [Array.prototype.findIndex]: the first index whose element passes
    the test, [-1] when none does. *)
Fixpoint findIndex_from {A : Type} (p : A -> bool) (a : list A) (i : Z) : Z :=
  match a with
  | [] => -1
  | x :: a' => if p x then i else findIndex_from p a' (i + 1)
  end.

Definition findIndex {A : Type} (p : A -> bool) (a : list A) : Z :=
  findIndex_from p a 0.

(** [for (let i = lo; i < hi; i++) { ... }] whose body either [break]s
    ([None]) or appends one element; [n] counts the iterations left. *)
Fixpoint for_loop {A : Type} (n : nat) (i : Z) (body : Z -> option A) : list A :=
  match n with
  | O => []
  | S n' =>
      match body i with
      | None => []
      | Some x => x :: for_loop n' (i + 1) body
      end
  end.

Definition for_range {A : Type} (lo hi : Z) (body : Z -> option A) : list A :=
  for_loop (Z.to_nat (hi - lo)) lo body.

(** The characters a string literal cannot hold directly. *)
Definition dquote : string := String (ascii_of_nat 34) EmptyString.
Definition degree : string := String (ascii_of_nat 176) EmptyString.

End JS.

Import JS.

Declare Scope js_scope.
Notation "a === k" := (num_cmp Z.eqb a k) (at level 70, no associativity) : js_scope.
Notation "a <=# k" := (num_cmp Z.leb a k) (at level 70, no associativity) : js_scope.
Notation "a >=# k" := (num_cmp Z.geb a k) (at level 70, no associativity) : js_scope.
Notation "a <# k" := (num_cmp Z.ltb a k) (at level 70, no associativity) : js_scope.
Notation "a ># k" := (num_cmp Z.gtb a k) (at level 70, no associativity) : js_scope.
Open Scope js_scope.

(** ** Weather-code classification ([parseWeather], lines 260-269) *)

Record Meta := { label : string; icon : string; theme : string }.

Definition icon_url (n b : string) : string :=
  "https://openweathermap.org/img/wn/" ++ n ++ b ++ "@4x.png".

Definition parseWeather (code : option Z) (isDay : Z) : Meta :=
  let b := if truthy isDay then "d" else "n" in
  if code === 0 then
    {| label := "Clear Sky"; icon := icon_url "01" b;
       theme := if truthy isDay then "clear" else "night" |}
  else if code <=# 3 then
    {| label := "Partly Cloudy"; icon := icon_url "02" b; theme := "cloudy" |}
  else if (code >=# 45) && (code <=# 48) then
    {| label := "Foggy"; icon := icon_url "50" b; theme := "cloudy" |}
  else if (code >=# 51) && (code <=# 67) then
    {| label := "Rain"; icon := icon_url "10" b; theme := "rain" |}
  else if (code >=# 71) && (code <=# 86) then
    {| label := "Snowfall"; icon := icon_url "13" b; theme := "cloudy" |}
  else if code >=# 95 then
    {| label := "Thunderstorm"; icon := icon_url "11" b; theme := "rain" |}
  else
    {| label := "Cloudy"; icon := icon_url "03" b; theme := "cloudy" |}.

(** ** The clock label of an hour card (line 198) *)

Definition hour_label (h : option Z) : string :=
  if h === 0 then "12 AM"
  else if h ># 12 then int_to_string (num_sub h 12) ++ " PM"
  else int_to_string h ++ " AM".

(** The daytime flag of an hour card (line 199). *)
Definition hour_is_day (h : option Z) : Z :=
  if (h ># 6) && (h <# 19) then 1 else 0.

(** ** The forecast payload (the JSON of the weather provider, line 76) *)

Record Current := {
  current_temperature_2m : Q;
  current_relative_humidity_2m : Q;
  current_apparent_temperature : Q;
  current_is_day : Z;
  current_precipitation : Q;
  current_weather_code : Z;
  current_wind_speed_10m : Q
}.

Record Hourly := {
  hourly_time : list string;
  hourly_temperature_2m : list Q;
  hourly_weather_code : list Z
}.

Record Daily := {
  daily_time : list string;
  daily_weather_code : list Z;
  daily_temperature_2m_max : list Q;
  daily_temperature_2m_min : list Q;
  daily_uv_index_max : list Q;
  daily_precipitation_probability_max : list Q;
  daily_wind_speed_10m_max : list Q
}.

Record Forecast := { current : Current; hourly : Hourly; daily : Daily }.

(** [weatherData = { ...data, cityName }] (line 80). *)
Record WeatherData := { forecast : Forecast; cityName : string }.

(** What [res.json()] gives for an answer of the forecast service: a
    forecast, or the object the service sends with an error status (an
    answer [fetch] does not reject), which has none of the members
    [current], [hourly] and [daily]. *)
Inductive ForecastBody :=
| ForecastOf (data : Forecast)
| ErrorObject.

(** What line 80 leaves in [weatherData]: a payload, or the error object
    of the service under the name of the place asked for. *)
Inductive Stored :=
| Payload (data : WeatherData)
| NoForecast (cityName : string).

(** ** The geocoding payload (lines 54-62) *)

Record Address := {
  city : option string;
  town : option string;
  village : option string;
  county : option string;
  postcode : option string
}.

Record SearchResult := { lat : string; lon : string; address : Address }.

(** ** What the browser supplies *)

Record DateTimeFormatOptions := {
  weekday : option string;
  month : option string;
  day : option string;
  hour : option string;
  minute : option string
}.

Class Host := {
  Date : Type;
  (** [new Date(x)] for a string or [undefined] *)
  Date_parse : option string -> Date;
  (** [a > b] on two dates *)
  Date_gt : Date -> Date -> bool;
  (** [d.getHours()], [NaN] for an invalid date *)
  getHours : Date -> option Z;
  (** [d.toLocaleDateString(locale, options)] *)
  toLocaleDateString : Date -> string -> DateTimeFormatOptions -> string;
  (** a number in a template literal or assigned to [innerText] *)
  Number_toString : Q -> string;
  encodeURIComponent : string -> string
}.

(** ** The page *)

Record HourCard := { h_time : string; h_icon : string; h_temp : string }.

Record DayRow := {
  d_name : string;
  d_precip : option string;
  d_icon : string;
  d_high : string;
  d_low : string;
  row_background : string
}.

(** An element shown or hidden through [style.display] and the class
    [hidden]. *)
Record Box := { display : string; hidden : bool }.

Inductive Content :=
| InnerText (s : string)
| InnerHTML (s : string).

(** The elements [renderMainView] writes (lines 146-169), and the hourly
    strip [renderHourly] rebuilds. *)
Record RenderModel := {
  el_cityName : string;
  el_currentDay : string;
  el_conditionDesc : string;
  el_tempNow : Content;
  deg_display : string;
  weatherIcon_src : string;
  el_precip : string;
  el_humidity : string;
  el_wind : string;
  el_uv : string;
  body_className : string;
  hourlyWrapper : list HourCard
}.

Record Dom := {
  citySearch_value : string;
  statusDiv : Box;
  statusText : string;
  weatherApp : Box;
  (** [None]: the page has no [.forecast-section] *)
  forecastSection_minWidth : option string;
  main_view : RenderModel;
  dailyWrapper : list DayRow
}.

(** The application: the page and the global [weatherData] (line 14). *)
Record App := { dom : Dom; weatherData : option Stored }.

Section Controller.

Context {host : Host}.

(** The two readings of the wall clock one render of the current view
    takes: [new Date()] on line 122 and on line 183. *)
Record Clock := { now_header : Date; now_hourly : Date }.

Definition show_number (x : option Q) : string :=
  match x with
  | Some q => Number_toString q
  | None => "undefined"
  end.

Definition show_rounded (x : option Q) : string := int_to_string (Math_round x).

(** *** [renderHourly] (lines 175-223) *)

(** Lines 179-191: where the strip starts. *)
Definition hourly_start (hourly : Hourly) (dayIndex : Z) (daily : option Daily) (now : Date) : Z :=
  if dayIndex =? -1 then
    let startIdx := findIndex (fun t => Date_gt (Date_parse (Some t)) now) (hourly_time hourly) in
    if startIdx =? -1 then 0 else startIdx
  else
    match daily with
    | Some daily =>
        let targetDate := lookup (daily_time daily) dayIndex in
        let startIdx := findIndex (fun t => startsWith t targetDate) (hourly_time hourly) in
        if startIdx =? -1 then 0 else startIdx
    | None => 0
    end.

(** Lines 196-212: one card. *)
Definition hour_card (hourly : Hourly) (dayIndex startIdx i : Z) (t : string) : HourCard :=
  let d := Date_parse (Some t) in
  let h := getHours d in
  let label := hour_label h in
  let m := parseWeather (lookup (hourly_weather_code hourly) i) (hour_is_day h) in
  let timeLabel := if (dayIndex =? -1) && (i =? startIdx) then "Now" else label in
  {| h_time := timeLabel;
     h_icon := icon m;
     h_temp := show_rounded (lookup (hourly_temperature_2m hourly) i) ++ degree |}.

(** Lines 194-222: the body of the loop; [None] is the [break] of line
    195. *)
Definition hourly_body (hourly : Hourly) (dayIndex startIdx i : Z) : option HourCard :=
  let t := lookup (hourly_time hourly) i in
  if truthy_str t then
    match t with
    | Some t => Some (hour_card hourly dayIndex startIdx i t)
    | None => None
    end
  else None.

Definition renderHourly (hourly : Hourly) (dayIndex : Z) (daily : option Daily) (now : Date)
  : list HourCard :=
  let startIdx := hourly_start hourly dayIndex daily now in
  for_range startIdx (startIdx + 24) (hourly_body hourly dayIndex startIdx).

(** *** [renderMainView] (lines 114-173) *)

Definition renderMainView (data : WeatherData) (index : Z) (clock : Clock) : RenderModel :=
  let isCurrent := index =? -1 in
  let f := forecast data in
  let '(meta, tempDisplay, dateString, precipVal, humidityVal, windVal, uvVal) :=
    if isCurrent then
      let cur := current f in
      (parseWeather (Some (current_weather_code cur)) (current_is_day cur),
       show_rounded (Some (current_temperature_2m cur)),
       toLocaleDateString (now_header clock) "en-US"
         {| weekday := Some "long"; month := Some "long"; day := Some "numeric";
            hour := Some "numeric"; minute := Some "2-digit" |},
       Number_toString (current_precipitation cur) ++ " mm",
       Number_toString (current_relative_humidity_2m cur) ++ "%",
       show_rounded (Some (current_wind_speed_10m cur)) ++ " km/h",
       show_number (lookup (daily_uv_index_max (daily f)) 0))
    else
      let day := daily f in
      let date := Date_parse (lookup (daily_time day) index) in
      (parseWeather (lookup (daily_weather_code day) index) 1,
       "<span style=" ++ dquote ++ "font-size: 0.6em" ++ dquote ++ ">"
         ++ show_rounded (lookup (daily_temperature_2m_max day) index) ++ degree ++ " / "
         ++ show_rounded (lookup (daily_temperature_2m_min day) index) ++ "</span>",
       toLocaleDateString date "en-US"
         {| weekday := Some "long"; month := Some "long"; day := Some "numeric";
            hour := None; minute := None |},
       show_number (lookup (daily_precipitation_probability_max day) index) ++ "%",
       "--",
       show_rounded (lookup (daily_wind_speed_10m_max day) index) ++ " km/h",
       show_number (lookup (daily_uv_index_max day) index))
  in
  {| el_cityName := cityName data;
     el_currentDay := dateString;
     el_conditionDesc := label meta;
     el_tempNow := if isCurrent then InnerText tempDisplay else InnerHTML tempDisplay;
     deg_display := if isCurrent then "inline" else "none";
     weatherIcon_src := icon meta;
     el_precip := precipVal;
     el_humidity := humidityVal;
     el_wind := windVal;
     el_uv := uvVal;
     body_className := "theme-" ++ theme meta;
     hourlyWrapper := renderHourly (hourly f) index (Some (daily f)) (now_hourly clock) |}.

(** *** [renderDaily] (lines 225-258) *)

Definition day_row (daily : Daily) (i : Z) : DayRow :=
  let d := Date_parse (lookup (daily_time daily) i) in
  let day :=
    if i =? 0 then "Today"
    else toLocaleDateString d "en-US"
           {| weekday := Some "long"; month := None; day := None; hour := None; minute := None |} in
  let m := parseWeather (lookup (daily_weather_code daily) i) 1 in
  let precip := lookup (daily_precipitation_probability_max daily) i in
  {| d_name := day;
     d_precip :=
       match precip with
       | Some p => if Qle_bool p 0 then None else Some (Number_toString p ++ "%")
       | None => None
       end;
     d_icon := icon m;
     d_high := show_rounded (lookup (daily_temperature_2m_max daily) i) ++ degree;
     d_low := show_rounded (lookup (daily_temperature_2m_min daily) i) ++ degree;
     row_background := "" |}.

Definition renderDaily (daily : Daily) : list DayRow :=
  for_range 0 (Z.of_nat (List.length (daily_time daily))) (fun i => Some (day_row daily i)).

(** *** [setLoadingState] (lines 271-280) and [populateUI] (lines 87-107) *)

Definition setLoadingState (msg : string) (d : Dom) : Dom :=
  {| citySearch_value := citySearch_value d;
     statusDiv := {| display := "flex"; hidden := false |};
     statusText := msg;
     weatherApp := {| display := "none"; hidden := true |};
     forecastSection_minWidth := forecastSection_minWidth d;
     main_view := main_view d;
     dailyWrapper := dailyWrapper d |}.

Definition populateUI (data : WeatherData) (clock : Clock) (d : Dom) : Dom :=
  {| citySearch_value := citySearch_value d;
     statusDiv := {| display := "none"; hidden := true |};
     statusText := statusText d;
     weatherApp := {| display := "block"; hidden := false |};
     forecastSection_minWidth := option_map (fun _ => "0") (forecastSection_minWidth d);
     main_view := renderMainView data (-1) clock;
     dailyWrapper := renderDaily (daily (forecast data)) |}.

(** Lines 88-100 of [populateUI]: what it has done when line 103 calls
    [renderMainView]. *)
Definition populateUI_panels (d : Dom) : Dom :=
  {| citySearch_value := citySearch_value d;
     statusDiv := {| display := "none"; hidden := true |};
     statusText := statusText d;
     weatherApp := {| display := "block"; hidden := false |};
     forecastSection_minWidth := option_map (fun _ => "0") (forecastSection_minWidth d);
     main_view := main_view d;
     dailyWrapper := dailyWrapper d |}.

(** *** The click handlers of the cards and rows (lines 216-220, 240-245) *)

Definition set_background (bg : string) (r : DayRow) : DayRow :=
  {| d_name := d_name r; d_precip := d_precip r; d_icon := d_icon r;
     d_high := d_high r; d_low := d_low r; row_background := bg |}.

Fixpoint highlight_row (n : nat) (rows : list DayRow) : list DayRow :=
  match rows, n with
  | [], _ => []
  | r :: rows', O => set_background "rgba(255,255,255,0.9)" r :: rows'
  | r :: rows', S n' => r :: highlight_row n' rows'
  end.

Definition show_slot (data : WeatherData) (index : Z) (clock : Clock)
    (rows : list DayRow -> list DayRow) (d : Dom) : Dom :=
  {| citySearch_value := citySearch_value d;
     statusDiv := statusDiv d;
     statusText := statusText d;
     weatherApp := weatherApp d;
     forecastSection_minWidth := forecastSection_minWidth d;
     main_view := renderMainView data index clock;
     dailyWrapper := rows (map (set_background "rgba(255,255,255,0.4)") (dailyWrapper d)) |}.

(** With no payload stored, [renderMainView] raises before it writes
    anything (reading [cur.weather_code] on line 120, [day.weather_code]
    on line 131) and the handler ends there. *)
Definition click_hour_card (clock : Clock) (st : App) : App :=
  match weatherData st with
  | Some (Payload data) =>
      {| dom := show_slot data (-1) clock (fun rows => rows) (dom st);
         weatherData := weatherData st |}
  | Some (NoForecast _) | None => st
  end.

Definition click_day_row (i : nat) (clock : Clock) (st : App) : App :=
  match weatherData st with
  | Some (Payload data) =>
      {| dom := show_slot data (Z.of_nat i) clock (highlight_row i) (dom st);
         weatherData := weatherData st |}
  | Some (NoForecast _) | None => st
  end.

(** *** The asynchronous handlers *)

(** A request to the network, indexed by the JSON it answers with. *)
Inductive Request : Type -> Type :=
| FetchSearch (url : string) : Request (list SearchResult)
| FetchForecast (url : string) : Request ForecastBody.

(** A handler runs until it is done or awaits a request.  When the
    answer comes ([None]: the request or the parsing of its answer
    failed) it resumes in the state the application then has, reading
    the clock of that moment. *)
Inductive Proc : Type :=
| Done (st : App)
| Await {R : Type} (req : Request R) (st : App) (k : option R -> Clock -> App -> Proc).

Definition set_status (msg : string) (st : App) : App :=
  {| dom := setLoadingState msg (dom st); weatherData := weatherData st |}.

Definition forecast_url (lat lon : string) : string :=
  "https://api.open-meteo.com/v1/forecast?latitude=" ++ lat ++ "&longitude=" ++ lon
  ++ "&current=temperature_2m,relative_humidity_2m,apparent_temperature,is_day,precipitation,weather_code,wind_speed_10m"
  ++ "&hourly=temperature_2m,weather_code"
  ++ "&daily=weather_code,temperature_2m_max,temperature_2m_min,uv_index_max,precipitation_probability_max,wind_speed_10m_max"
  ++ "&timezone=auto&forecast_days=10".

(** [getWeather] (lines 73-85).  When the request or the parsing of its
    answer fails the [catch] is reached before line 80.  On the error
    object line 80 stores it, [populateUI] runs up to line 103, where
    [renderMainView] raises on line 120 before it writes anything, and
    the [catch] sets the status. *)
Definition getWeather (lat lon cityName : string) (st : App) : Proc :=
  Await (FetchForecast (forecast_url lat lon)) st
    (fun res clock st =>
       match res with
       | Some (ForecastOf data) =>
           let weatherData := {| forecast := data; cityName := cityName |} in
           Done {| dom := populateUI weatherData clock (dom st);
                   weatherData := Some (Payload weatherData) |}
       | Some ErrorObject =>
           Done {| dom := setLoadingState "Weather data unavailable."
                            (populateUI_panels (dom st));
                   weatherData := Some (NoForecast cityName) |}
       | None => Done (set_status "Weather data unavailable." st)
       end).

Definition search_url (val : string) : string :=
  "https://nominatim.openstreetmap.org/search?format=json&addressdetails=1&q="
  ++ encodeURIComponent val.

(** Lines 59-62: the name shown for a search result. *)
Definition display_name (a : Address) : string :=
  let displayName :=
    or_default (or_else (or_else (or_else (city a) (town a)) (village a)) (county a))
      "Unknown Location" in
  if truthy_str (postcode a) then
    displayName ++ ", " ++ match postcode a with Some p => p | None => "" end
  else displayName.

(** Lines 52-70: what follows the answer to the search. *)
Definition search_answered (res : option (list SearchResult)) (clock : Clock) (st : App) : Proc :=
  match res with
  | Some (data :: _) => getWeather (lat data) (lon data) (display_name (address data)) st
  | Some [] => Done (set_status "City not found." st)
  | None => Done (set_status "Search connection error." st)
  end.

(** [handleManualSearch] (lines 45-71). *)
Definition handleManualSearch (st : App) : Proc :=
  let val := trim (citySearch_value (dom st)) in
  if negb (truthy_str (Some val)) then Done st
  else
    Await (FetchSearch (search_url val))
      (set_status ("Searching for " ++ val ++ "...") st)
      search_answered.

(** *** Running a handler to its end *)

Inductive Sent :=
| SentSearch (url : string)
| SentForecast (url : string).

Definition sent {R : Type} (req : Request R) : Sent :=
  match req with
  | FetchSearch url => SentSearch url
  | FetchForecast url => SentForecast url
  end.

(** The world around one run: what the network answers and what the
    clock reads. *)
Record World := {
  answer : forall R : Type, Request R -> option R;
  clock_reads : Clock
}.

(** Runs a handler with nothing else in between; the result is the
    final state and the requests sent, in order. *)
Fixpoint run (w : World) (p : Proc) : App * list Sent :=
  match p with
  | Done st => (st, [])
  | Await req st k =>
      let r := run w (k (answer w _ req) (clock_reads w) st) in
      (fst r, sent req :: snd r)
  end.

End Controller.

(** ** Start-up: geolocation and reverse lookup *)

(** [pos.coords] of the geolocation callback (line 31). *)
Record Coords := { latitude : Q; longitude : Q }.

(** The JSON of a reverse lookup: the geocoder answers without [address]
    where it knows no place. *)
Record ReverseResult := { reverse_address : option Address }.

Section Startup.

Context {host : Host}.

Definition reverse_url (lat lon : Q) : string :=
  "https://nominatim.openstreetmap.org/reverse?format=json&lat=" ++ Number_toString lat
  ++ "&lon=" ++ Number_toString lon ++ "&addressdetails=1".

(** Lines 285-293: the name [reverseLookup] returns for an answer; a
    failed request, and an answer without [address] (reading [addr.city]
    raises), end in the [catch] of line 293. *)
Definition location_name (res : option ReverseResult) : string :=
  match res with
  | Some data =>
      match reverse_address data with
      | Some addr =>
          let locationName :=
            or_default (or_else (or_else (or_else (city addr) (town addr)) (village addr))
                          (county addr))
              "My Location" in
          if truthy_str (postcode addr) then
            locationName ++ ", " ++ match postcode addr with Some p => p | None => "" end
          else locationName
      | None => "My Location"
      end
  | None => "My Location"
  end.

(** The start-up sequence awaits the position and the reverse lookup
    before it goes on as a handler of the network. *)
Inductive Startup : Type :=
| Handler (p : Proc)
| AwaitPosition (st : App) (k : option Coords -> App -> Startup)
| AwaitReverse (url : string) (st : App) (k : option ReverseResult -> App -> Startup).

(** [reverseLookup] (lines 282-294); [k] is what its caller does with the
    name. *)
Definition reverseLookup (lat lon : Q) (st : App) (k : string -> App -> Startup) : Startup :=
  AwaitReverse (reverse_url lat lon) st (fun res st' => k (location_name res) st').

(** [initApp] (lines 26-43); [geolocation] tells whether the browser has
    [navigator.geolocation], and the position is [None] when the failure
    callback is called. *)
Definition initApp (geolocation : bool) (st : App) : Startup :=
  if geolocation then
    AwaitPosition (set_status "Finding your current location..." st)
      (fun pos st' =>
         match pos with
         | Some coords =>
             reverseLookup (latitude coords) (longitude coords) st'
               (fun cityDetails st'' =>
                  Handler (getWeather (Number_toString (latitude coords))
                             (Number_toString (longitude coords)) cityDetails st''))
         | None => Handler (Done (set_status "Location denied. Please search manually." st'))
         end)
  else Handler (Done (set_status "Geolocation not supported." st)).

Inductive Event :=
| AskedPosition
| SentReverse (url : string)
| Network (s : Sent).

(** The world around a start-up: the network of the handlers, the
    position the browser gives and what the reverse lookup answers. *)
Record Surroundings := {
  network : World;
  position : option Coords;
  reverse_answer : string -> option ReverseResult
}.

Fixpoint run_startup (e : Surroundings) (p : Startup) : App * list Event :=
  match p with
  | Handler h => (fst (run (network e) h), map Network (snd (run (network e) h)))
  | AwaitPosition st k =>
      let r := run_startup e (k (position e) st) in
      (fst r, AskedPosition :: snd r)
  | AwaitReverse url st k =>
      let r := run_startup e (k (reverse_answer e url) st) in
      (fst r, SentReverse url :: snd r)
  end.

End Startup.

(** ** Predicates the properties are stated with *)

(** The string is empty or holds white space only. *)
Fixpoint all_space (s : string) : bool :=
  match s with
  | EmptyString => true
  | String c s' => is_space c && all_space s'
  end.

(** The bucket table of the specification (section 4.3, step 2), in its
    order: the range of each row, its label and its theme by daytime
    flag.  A code takes the first row whose range holds it, and the
    fallback "Cloudy" when none does. *)
Definition bucket_table : list ((Z -> bool) * string * (bool -> string)) :=
  [ (fun c : Z => c =? 0, "Clear Sky", fun isDay : bool => if isDay then "clear" else "night");
    (fun c : Z => (1 <=? c) && (c <=? 3), "Partly Cloudy", fun _ : bool => "cloudy");
    (fun c : Z => (45 <=? c) && (c <=? 48), "Foggy", fun _ : bool => "cloudy");
    (fun c : Z => (51 <=? c) && (c <=? 67), "Rain", fun _ : bool => "rain");
    (fun c : Z => (71 <=? c) && (c <=? 86), "Snowfall", fun _ : bool => "cloudy");
    (fun c : Z => 95 <=? c, "Thunderstorm", fun _ : bool => "rain") ].

Definition rows_holding (code : Z) : list ((Z -> bool) * string * (bool -> string)) :=
  filter (fun row => fst (fst row) code) bucket_table.

Definition classify_by_table (code : Z) (isDay : bool) : string * string :=
  match rows_holding code with
  | (_, label, theme) :: _ => (label, theme isDay)
  | [] => ("Cloudy", "cloudy")
  end.

(** The first of the fields that is present and not empty, [default]
    when none is. *)
Fixpoint first_nonempty (fields : list (option string)) (default : string) : string :=
  match fields with
  | [] => default
  | f :: fields' => if truthy_str f then match f with Some s => s | None => default end
                    else first_nonempty fields' default
  end.

(** A name with the postcode after it, when there is one. *)
Definition with_postcode (name : string) (a : Address) : string :=
  match postcode a with
  | Some p => if (p =? "")%string then name else name ++ ", " ++ p
  | None => name
  end.

(** A panel is on screen: not hidden by its class nor by its style. *)
Definition shown (b : Box) : bool := negb (hidden b) && negb (display b =? "none")%string.

(** The name under which [weatherData] is stored. *)
Definition stored_name (s : Stored) : string :=
  match s with
  | Payload data => cityName data
  | NoForecast cityName => cityName
  end.

(** The header of the main card names the city of what is stored. *)
Definition header_synced (st : App) : Prop :=
  match weatherData st with
  | Some s => el_cityName (main_view (dom st)) = stored_name s
  | None => True
  end.

(** The hours [getHours] returns for a valid date. *)
Definition hours_of_day : list Z := map Z.of_nat (seq 0 24).

(** [s] is the first index of [a] whose element passes [p]. *)
Definition first_match {A : Type} (p : A -> bool) (a : list A) (s : Z) : Prop :=
  exists x, lookup a s = Some x /\ p x = true /\
    forall j y, 0 <= j < s -> lookup a j = Some y -> p y = false.

(** No element of [a] passes [p]. *)
Definition no_match {A : Type} (p : A -> bool) (a : list A) : Prop :=
  forall x, In x a -> p x = false.

(** ** A reference host

    A browser in the UTC time zone with the en-US locale: a date is its
    number of minutes since 1970-01-01T00:00, [None] when invalid.  It
    reads the two timestamp forms of the weather provider, [YYYY-MM-DD]
    and [YYYY-MM-DDTHH:MM]. *)

Module Reference.

Definition digit (c : ascii) : option Z :=
  let n := Z.of_nat (nat_of_ascii c) in
  if (48 <=? n) && (n <=? 57) then Some (n - 48) else None.

Fixpoint number_from (s : string) (acc : Z) : option Z :=
  match s with
  | EmptyString => Some acc
  | String c s' =>
      match digit c with
      | Some d => number_from s' (10 * acc + d)
      | None => None
      end
  end.

Definition field (s : string) (start len : nat) : option Z :=
  number_from (substring start len s) 0.

Definition days_from_civil (y m d : Z) : Z :=
  let y' := if m <=? 2 then y - 1 else y in
  let era := y' / 400 in
  let yoe := y' - era * 400 in
  let doy := (153 * (if 2 <? m then m - 3 else m + 9) + 2) / 5 + d - 1 in
  let doe := yoe * 365 + yoe / 4 - yoe / 100 + doy in
  era * 146097 + doe - 719468.

(** Year, month and day of a day number. *)
Definition civil_from_days (z : Z) : Z * Z * Z :=
  let z := z + 719468 in
  let era := z / 146097 in
  let doe := z - era * 146097 in
  let yoe := (doe - doe / 1460 + doe / 36524 - doe / 146096) / 365 in
  let doy := doe - (365 * yoe + yoe / 4 - yoe / 100) in
  let mp := (5 * doy + 2) / 153 in
  let d := doy - (153 * mp + 2) / 5 + 1 in
  let m := if mp <? 10 then mp + 3 else mp - 9 in
  (yoe + era * 400 + (if m <=? 2 then 1 else 0), m, d).

Definition in_range (lo hi : Z) (x : option Z) : option Z :=
  match x with
  | Some n => if (lo <=? n) && (n <=? hi) then Some n else None
  | None => None
  end.

Definition parse_date (s : string) : option Z :=
  match field s 0 4, in_range 1 12 (field s 5 2), in_range 1 31 (field s 8 2) with
  | Some y, Some m, Some d =>
      if (substring 4 1 s =? "-")%string && (substring 7 1 s =? "-")%string
      then Some (days_from_civil y m d) else None
  | _, _, _ => None
  end.

Definition parse (x : option string) : option Z :=
  match x with
  | None => None
  | Some s =>
      if (String.length s =? 10)%nat then option_map (fun d => d * 1440) (parse_date s)
      else if (String.length s =? 16)%nat then
        match parse_date s, in_range 0 23 (field s 11 2), in_range 0 59 (field s 14 2) with
        | Some d, Some h, Some mi =>
            if (substring 10 1 s =? "T")%string && (substring 13 1 s =? ":")%string
            then Some (d * 1440 + h * 60 + mi) else None
        | _, _, _ => None
        end
      else None
  end.

Definition gt (a b : option Z) : bool :=
  match a, b with
  | Some x, Some y => y <? x
  | _, _ => false
  end.

Definition hours (d : option Z) : option Z := option_map (fun t => (t / 60) mod 24) d.

Definition weekday_name (days : Z) : string :=
  nth (Z.to_nat ((days + 4) mod 7))
    ["Sunday"; "Monday"; "Tuesday"; "Wednesday"; "Thursday"; "Friday"; "Saturday"] "".

Definition month_name (m : Z) : string :=
  nth (Z.to_nat (m - 1))
    ["January"; "February"; "March"; "April"; "May"; "June"; "July"; "August";
     "September"; "October"; "November"; "December"] "".

Definition two_digits (n : Z) : string :=
  if n <? 10 then "0" ++ Z_to_string n else Z_to_string n.

Definition clock_time (t : Z) : string :=
  let h := (t / 60) mod 24 in
  Z_to_string (if h mod 12 =? 0 then 12 else h mod 12) ++ ":" ++ two_digits (t mod 60)
  ++ (if h <? 12 then " AM" else " PM").

Definition format (d : option Z) (locale : string) (o : DateTimeFormatOptions) : string :=
  match d with
  | None => "Invalid Date"
  | Some t =>
      let days := t / 1440 in
      let '(_, m, dd) := civil_from_days days in
      match month o, hour o with
      | None, _ => weekday_name days
      | Some _, None => weekday_name days ++ ", " ++ month_name m ++ " " ++ Z_to_string dd
      | Some _, Some _ =>
          weekday_name days ++ ", " ++ month_name m ++ " " ++ Z_to_string dd
          ++ " at " ++ clock_time t
      end
  end.

(** A number with a finite decimal expansion, as JavaScript prints it. *)
Fixpoint fraction (n : nat) (r d : Z) : string :=
  match n with
  | O => ""
  | S n' => if r =? 0 then "" else Z_to_string (10 * r / d) ++ fraction n' ((10 * r) mod d) d
  end.

Definition number_text (q : Q) : string :=
  let d := Z.pos (Qden q) in
  let a := Z.abs (Qnum q) in
  (if Qnum q <? 0 then "-" else "") ++ Z_to_string (a / d)
  ++ (if a mod d =? 0 then "" else "." ++ fraction 17 (a mod d) d).

Definition hex_digit (n : Z) : string :=
  String (ascii_of_nat (Z.to_nat (if n <? 10 then 48 + n else 55 + n))) EmptyString.

Definition percent (n : Z) : string := "%" ++ hex_digit (n / 16) ++ hex_digit (n mod 16).

Definition unreserved (n : Z) : bool :=
  ((48 <=? n) && (n <=? 57)) || ((65 <=? n) && (n <=? 90)) || ((97 <=? n) && (n <=? 122))
  || existsb (Z.eqb n) [45; 95; 46; 33; 126; 42; 39; 40; 41].

Fixpoint encode (s : string) : string :=
  match s with
  | EmptyString => EmptyString
  | String c s' =>
      let n := Z.of_nat (nat_of_ascii c) in
      (if unreserved n then String c EmptyString
       else if n <? 128 then percent n
       else percent (192 + n / 64) ++ percent (128 + n mod 64))
      ++ encode s'
  end.

#[export] Instance host : Host := {|
  Date := option Z;
  Date_parse := parse;
  Date_gt := gt;
  getHours := hours;
  toLocaleDateString := format;
  Number_toString := number_text;
  encodeURIComponent := encode
|}.

(** A small payload: two days, four hours around midnight. *)
Definition sample_forecast : Forecast := {|
  current := {|
    current_temperature_2m := 186 # 10;
    current_relative_humidity_2m := 64 # 1;
    current_apparent_temperature := 179 # 10;
    current_is_day := 0;
    current_precipitation := 5 # 10;
    current_weather_code := 61;
    current_wind_speed_10m := 124 # 10 |};
  hourly := {|
    hourly_time := ["2024-05-01T22:00"; "2024-05-01T23:00"; "2024-05-02T00:00"; "2024-05-02T01:00"];
    hourly_temperature_2m := [181 # 10; 174 # 10; 166 # 10; 160 # 10];
    hourly_weather_code := [61; 3; 0; 45] |};
  daily := {|
    daily_time := ["2024-05-01"; "2024-05-02"];
    daily_weather_code := [61; 2];
    daily_temperature_2m_max := [215 # 10; 233 # 10];
    daily_temperature_2m_min := [128 # 10; 135 # 10];
    daily_uv_index_max := [655 # 100; 7 # 1];
    daily_precipitation_probability_max := [80 # 1; 0 # 1];
    daily_wind_speed_10m_max := [187 # 10; 92 # 10] |}
|}.

Definition sample_data : WeatherData :=
  {| forecast := sample_forecast; cityName := "Shimla, 171001" |}.

(** The wall clock at a given minute, and a render that reads it. *)
Definition at_time (s : string) : Date := Date_parse (Some s).

Definition reading (s : string) : Clock :=
  {| now_header := at_time s; now_hourly := at_time s |}.

Definition blank_view : RenderModel := {|
  el_cityName := ""; el_currentDay := ""; el_conditionDesc := ""; el_tempNow := InnerText "";
  deg_display := ""; weatherIcon_src := ""; el_precip := ""; el_humidity := ""; el_wind := "";
  el_uv := ""; body_className := ""; hourlyWrapper := [] |}.

(** The page with a query typed in the search box and a payload stored
    by an earlier fetch, or none. *)
Definition page (query : string) (stored : option Stored) : App := {|
  dom := {|
    citySearch_value := query;
    statusDiv := {| display := ""; hidden := false |};
    statusText := "";
    weatherApp := {| display := ""; hidden := true |};
    forecastSection_minWidth := Some "";
    main_view := blank_view;
    dailyWrapper := [] |};
  weatherData := stored
|}.

(** A network on which every search finds nothing and the forecast
    service is down. *)
Definition nothing_found : World := {|
  answer := fun R req =>
    match req in Request R return option R with
    | FetchSearch _ => Some []
    | FetchForecast _ => None
    end;
  clock_reads := reading "2024-05-01T21:30"
|}.

(** A geocoder that knows one place, twice, and a forecast service that
    answers with the sample payload. *)
Definition shimla : SearchResult := {|
  lat := "31.1041526"; lon := "77.1709729";
  address := {| city := Some "Shimla"; town := None; village := None;
                county := Some "Shimla (urban)"; postcode := Some "171001" |} |}.

Definition shimla_rural : SearchResult := {|
  lat := "31.2"; lon := "77.3";
  address := {| city := None; town := None; village := Some "";
                county := Some "Shimla (rural)"; postcode := None |} |}.

Definition all_found : World := {|
  answer := fun R req =>
    match req in Request R return option R with
    | FetchSearch _ => Some [shimla; shimla_rural]
    | FetchForecast _ => Some (ForecastOf sample_forecast)
    end;
  clock_reads := reading "2024-05-01T21:30"
|}.

Definition forecast_down : World := {|
  answer := fun R req =>
    match req in Request R return option R with
    | FetchSearch _ => Some [shimla]
    | FetchForecast _ => None
    end;
  clock_reads := reading "2024-05-01T21:30"
|}.

(** The forecast service answers with its error object. *)
Definition forecast_refused : World := {|
  answer := fun R req =>
    match req in Request R return option R with
    | FetchSearch _ => Some [shimla]
    | FetchForecast _ => Some ErrorObject
    end;
  clock_reads := reading "2024-05-01T21:30"
|}.

Definition offline : World := {|
  answer := fun R req =>
    match req in Request R return option R with
    | FetchSearch _ => None
    | FetchForecast _ => None
    end;
  clock_reads := reading "2024-05-01T21:30"
|}.

(** A start-up at sea: the position is known, the reverse lookup answers
    without an address. *)
Definition at_sea : Surroundings := {|
  network := all_found;
  position := Some {| latitude := 105 # 10; longitude := 72 # 1 |};
  reverse_answer := fun _ => Some {| reverse_address := None |}
|}.

(** A start-up the user refuses the position to. *)
Definition denied : Surroundings := {|
  network := all_found;
  position := None;
  reverse_answer := fun _ => None
|}.

(** A day of twenty-six hourly entries, one per hour from midnight. *)
Definition long_hourly : Hourly := {|
  hourly_time := map (fun h => "2024-05-" ++ two_digits (2 + h / 24) ++ "T"
                                ++ two_digits (h mod 24) ++ ":00")
                   (map Z.of_nat (seq 0 26));
  hourly_temperature_2m := map (fun h => inject_Z (10 + h)) (map Z.of_nat (seq 0 26));
  hourly_weather_code := map (fun h => h) (map Z.of_nat (seq 0 26))
|}.

(** The page after the sample payload was shown. *)
Definition shown_page : App := {|
  dom := populateUI sample_data (reading "2024-05-01T21:30") (dom (page "" None));
  weatherData := Some (Payload sample_data)
|}.

End Reference.

(** * Properties *)

(** ** Arrays, searches and loops *)

Lemma lookup_Some_range {A : Type} (a : list A) (i : Z) (x : A) :
  lookup a i = Some x -> 0 <= i < Z.of_nat (List.length a).
Proof.
  unfold lookup. destruct (Z.ltb_spec i 0) as [Hneg | Hpos]; [discriminate |].
  intros Hx.
  assert (Hlt : (Z.to_nat i < List.length a)%nat) by (apply nth_error_Some; congruence).
  lia.
Qed.

Lemma lookup_in_range {A : Type} (a : list A) (i : Z) :
  0 <= i < Z.of_nat (List.length a) -> exists x, lookup a i = Some x.
Proof.
  intros Hi. unfold lookup. destruct (Z.ltb_spec i 0) as [Hneg | Hpos]; [lia |].
  destruct (nth_error a (Z.to_nat i)) as [x |] eqn:Hx; [now exists x |].
  apply nth_error_None in Hx. lia.
Qed.

Lemma lookup_of_nat {A : Type} (a : list A) (k : nat) :
  lookup a (Z.of_nat k) = nth_error a k.
Proof.
  unfold lookup. destruct (Z.ltb_spec (Z.of_nat k) 0) as [Hneg | Hpos]; [lia |].
  now rewrite Nat2Z.id.
Qed.

Lemma findIndex_from_cases {A : Type} (p : A -> bool) (a : list A) :
  forall i : Z,
    (findIndex_from p a i = -1 /\ no_match p a) \/
    (exists (k : nat) (x : A),
        findIndex_from p a i = i + Z.of_nat k /\ nth_error a k = Some x /\ p x = true /\
        forall (j : nat) (y : A), (j < k)%nat -> nth_error a j = Some y -> p y = false) \/
    i < 0.
Proof.
  induction a as [| x a IH]; intros i.
  - left. split; [reflexivity | intros y []].
  - destruct (Z.ltb_spec i 0) as [Hneg | Hpos]; [now right; right |].
    simpl. destruct (p x) eqn:Hpx.
    + right; left. exists 0%nat, x. repeat split; auto; try lia.
    + destruct (IH (i + 1)) as [[Hnone Hall] | [(k & y & Hk & Hnth & Hpy & Hbefore) | Hneg]].
      * left. split; [assumption |]. intros y [<- | Hy]; auto.
      * right; left. exists (S k), y. repeat split; auto; try lia.
        intros [| j] z Hj Hz; simpl in Hz.
        -- congruence.
        -- apply (Hbefore j); [lia | assumption].
      * lia.
Qed.

Lemma findIndex_cases {A : Type} (p : A -> bool) (a : list A) :
  (findIndex p a = -1 /\ no_match p a) \/
  (0 <= findIndex p a /\ first_match p a (findIndex p a)).
Proof.
  unfold findIndex.
  destruct (findIndex_from_cases p a 0) as [H | [(k & x & Hk & Hnth & Hpx & Hbefore) | Hneg]];
    [now left | | lia].
  right. rewrite Hk. simpl. split; [lia |].
  exists x. rewrite lookup_of_nat. repeat split; auto.
  intros j y Hj Hy. rewrite <- (Z2Nat.id j) in Hy by lia.
  rewrite lookup_of_nat in Hy. apply (Hbefore (Z.to_nat j)); [lia | assumption].
Qed.

(** The fallback of lines 185 and 190 after a search. *)
Lemma start_or_zero {A : Type} (p : A -> bool) (a : list A) :
  let s := if findIndex p a =? -1 then 0 else findIndex p a in
  first_match p a s \/ (no_match p a /\ s = 0).
Proof.
  simpl. destruct (findIndex_cases p a) as [[Hnone Hall] | [Hpos Hfirst]].
  - rewrite Hnone. simpl. now right.
  - destruct (Z.eqb_spec (findIndex p a) (-1)) as [Heq | Hne]; [lia | now left].
Qed.

Lemma first_match_range {A : Type} (p : A -> bool) (a : list A) (s : Z) :
  first_match p a s -> 0 <= s < Z.of_nat (List.length a).
Proof. intros (x & Hx & _). now apply lookup_Some_range in Hx. Qed.

Lemma for_loop_length {A : Type} (body : Z -> option A) :
  forall (n : nat) (i : Z), (List.length (for_loop n i body) <= n)%nat.
Proof.
  induction n as [| n IH]; intros i; simpl; [lia |].
  destruct (body i); simpl; [specialize (IH (i + 1)) |]; lia.
Qed.

Lemma for_loop_nth {A : Type} (body : Z -> option A) :
  forall (n : nat) (i : Z) (k : nat) (c : A),
    nth_error (for_loop n i body) k = Some c -> body (i + Z.of_nat k) = Some c.
Proof.
  induction n as [| n IH]; intros i k c; simpl.
  - destruct k; discriminate.
  - destruct (body i) as [x |] eqn:Hx.
    + destruct k as [| k]; cbn [nth_error].
      * intros [= <-]. now rewrite Z.add_0_r.
      * intros Hk. apply IH in Hk.
        replace (i + Z.of_nat (S k)) with (i + 1 + Z.of_nat k) by lia. exact Hk.
    + destruct k; discriminate.
Qed.

(** The loop ends after [n] rounds or at the first [break]. *)
Lemma for_loop_stop {A : Type} (body : Z -> option A) :
  forall (n : nat) (i : Z),
    List.length (for_loop n i body) = n \/
    body (i + Z.of_nat (List.length (for_loop n i body))) = None.
Proof.
  induction n as [| n IH]; intros i; simpl; [now left |].
  destruct (body i) as [x |] eqn:Hx; simpl.
  - destruct (IH (i + 1)) as [Hlen | Hbreak].
    + left. now rewrite Hlen.
    + right. rewrite <- Hbreak. f_equal. lia.
  - right. now rewrite Z.add_0_r.
Qed.

Lemma for_loop_first {A : Type} (body : Z -> option A) (n : nat) (i : Z) (c : A) :
  body i = Some c -> exists rest, for_loop (S n) i body = c :: rest.
Proof. intros Hc. simpl. rewrite Hc. now eexists. Qed.

(** ** Strings *)

Lemma append_length (s t : string) :
  String.length (s ++ t) = (String.length s + String.length t)%nat.
Proof. induction s as [| c s IH]; simpl; [reflexivity | now rewrite IH]. Qed.

Lemma trimStart_all_space (s : string) : all_space s = true -> trimStart s = "".
Proof.
  induction s as [| c s IH]; simpl; [reflexivity |].
  intros H. apply andb_true_iff in H as [Hc Hs]. rewrite Hc. now apply IH.
Qed.

Lemma trim_all_space (s : string) : all_space s = true -> trim s = "".
Proof. intros H. unfold trim. now rewrite trimStart_all_space. Qed.

Lemma trimEnd_empty (s : string) : trimEnd s = "" -> all_space s = true.
Proof.
  induction s as [| c s IH]; simpl; [reflexivity |].
  destruct (trimEnd s) eqn:Ht; [| discriminate].
  destruct (is_space c); [intros _; now apply IH | discriminate].
Qed.

Lemma trimStart_suffix (s : string) : all_space (trimStart s) = true -> all_space s = true.
Proof.
  induction s as [| c s IH]; simpl; [reflexivity |].
  destruct (is_space c) eqn:Hc; simpl; [assumption |].
  rewrite Hc. discriminate.
Qed.

(** The guard of line 47 lets through exactly the inputs that are not
    blank. *)
Lemma trim_empty_iff (s : string) : trim s = "" <-> all_space s = true.
Proof.
  split; [| apply trim_all_space].
  unfold trim. intros H. apply trimStart_suffix. now apply trimEnd_empty.
Qed.

(** A timestamp [date ++ rest] starts with a target of the length of
    [date] exactly when [date] is the target: on the timestamps of the
    provider, [YYYY-MM-DDTHH:MM], the test of line 189 compares the date
    portion with the date of the day. *)
Lemma startsWith_date_portion (target date rest : string) :
  String.length target = String.length date ->
  startsWith (date ++ rest) (Some target) = true <-> date = target.
Proof.
  unfold startsWith. revert date.
  induction target as [| a target IH]; intros [| b date] Hlen; simpl in *; try discriminate.
  - destruct rest; now split.
  - injection Hlen as Hlen. destruct (ascii_dec a b) as [<- | Hab].
    + rewrite (IH date Hlen). split; congruence.
    + split; [discriminate | congruence].
Qed.

Lemma suffixed_not_Now (s t : string) : String.length t = 3%nat -> t <> "Now" -> s ++ t <> "Now".
Proof.
  intros Hlen Hne Heq.
  assert (Hs : String.length s = 0%nat).
  { apply (f_equal String.length) in Heq. rewrite append_length, Hlen in Heq. simpl in Heq. lia. }
  destruct s; [| discriminate]. now apply Hne.
Qed.

Lemma hour_label_not_Now (h : option Z) : hour_label h <> "Now".
Proof.
  unfold hour_label. destruct (h === 0); [discriminate |].
  destruct (h ># 12); apply suffixed_not_Now; simpl; congruence.
Qed.

(** ** The clock label and the classification *)

(** On every hour of the day but noon the label of line 198 is the
    12-hour one. *)
Lemma hour_label_off_noon (h : Z) :
  0 <= h <= 23 -> h <> 12 ->
  hour_label (Some h) =
    if h =? 0 then "12 AM"
    else if h <? 12 then Z_to_string h ++ " AM"
    else Z_to_string (h - 12) ++ " PM".
Proof.
  intros Hh Hnoon. unfold hour_label. simpl.
  destruct (Z.eqb_spec h 0) as [-> | H0]; [reflexivity |].
  rewrite Z.gtb_ltb.
  destruct (Z.ltb_spec 12 h), (Z.ltb_spec h 12); try reflexivity; lia.
Qed.

(** C1 (evaluation at the failing input): the label line 198 computes for
    hour 12 is "12 AM", where the 12-hour rule of the specification asks for
    "12 PM"; the test [h > 12] sends noon to the morning branch. *)
Theorem hour_label_noon : hour_label (Some 12) = "12 AM" /\ hour_label (Some 12) <> "12 PM".
Proof. split; [reflexivity | discriminate]. Qed.

(** The other boundary hours of the specification come out as it says. *)
Example hour_label_boundaries :
  hour_label (Some 0) = "12 AM" /\ hour_label (Some 13) = "1 PM" /\ hour_label (Some 23) = "11 PM".
Proof. repeat split. Qed.

(** Splits on the comparisons of the goal one at a time, dropping at
    once the cases the bounds known so far rule out. *)
Ltac split_code :=
  repeat match goal with
    | |- context [Z.geb ?a ?b] => rewrite (Z.geb_leb a b)
    | |- context [Z.eqb ?a ?b] => destruct (Z.eqb_spec a b); try (exfalso; lia)
    | |- context [Z.leb ?a ?b] => destruct (Z.leb_spec a b); try (exfalso; lia)
    end.

(** C2: every code from 0 to 99, with either daytime flag, gets the
    label and theme of the first row of the ordered table that holds it,
    and at most one row does, the fallback applying when none does: 0 is
    "Clear Sky" (theme clear by day, night otherwise), 1-3 "Partly
    Cloudy", 45-48 "Foggy", 51-67 "Rain" (theme rain whatever the flag),
    71-86 "Snowfall", 95 and above "Thunderstorm", and every remaining
    code the fallback "Cloudy". *)
Theorem parseWeather_table (code isDay : Z) :
  0 <= code <= 99 ->
  let m := parseWeather (Some code) isDay in
  (label m, theme m) = classify_by_table code (truthy isDay) /\
  (List.length (rows_holding code) <= 1)%nat /\
  (code = 0 ->
     label m = "Clear Sky" /\ theme m = if truthy isDay then "clear" else "night") /\
  (1 <= code <= 3 -> label m = "Partly Cloudy" /\ theme m = "cloudy") /\
  (45 <= code <= 48 -> label m = "Foggy" /\ theme m = "cloudy") /\
  (51 <= code <= 67 -> label m = "Rain" /\ theme m = "rain") /\
  (71 <= code <= 86 -> label m = "Snowfall" /\ theme m = "cloudy") /\
  (95 <= code -> label m = "Thunderstorm" /\ theme m = "rain") /\
  (4 <= code <= 44 \/ 49 <= code <= 50 \/ 68 <= code <= 70 \/ 87 <= code <= 94 ->
     label m = "Cloudy" /\ theme m = "cloudy").
Proof.
  intros Hcode m. subst m.
  unfold parseWeather, num_cmp, classify_by_table, rows_holding, bucket_table, filter, fst.
  split_code; simpl; repeat split; intros; try reflexivity; lia.
Qed.

(** C9: code 50 is in no range of the table and gets the fallback, label
    "Cloudy" with theme "cloudy", with either daytime flag; it is neither
    "Foggy" nor "Rain". *)
Theorem parseWeather_code_50 (isDay : Z) :
  label (parseWeather (Some 50) isDay) = "Cloudy" /\
  theme (parseWeather (Some 50) isDay) = "cloudy" /\
  label (parseWeather (Some 50) isDay) <> "Foggy" /\
  label (parseWeather (Some 50) isDay) <> "Rain".
Proof. repeat split; discriminate. Qed.

(** The scenarios of the specification. *)
Example parseWeather_scenarios :
  label (parseWeather (Some 0) 1) = "Clear Sky" /\ theme (parseWeather (Some 0) 1) = "clear" /\
  label (parseWeather (Some 61) 0) = "Rain" /\ theme (parseWeather (Some 61) 0) = "rain" /\
  label (parseWeather (Some 97) 1) = "Thunderstorm" /\
  label (parseWeather (Some 40) 1) = "Cloudy".
Proof. repeat split. Qed.

Section Views.

Context {host : Host}.

(** ** The hourly strip *)

Lemma hourly_body_Some (hourly : Hourly) (dayIndex s i : Z) (c : HourCard) :
  hourly_body hourly dayIndex s i = Some c ->
  exists t, lookup (hourly_time hourly) i = Some t /\ t <> "" /\
            c = hour_card hourly dayIndex s i t.
Proof.
  unfold hourly_body. destruct (lookup (hourly_time hourly) i) as [t |]; simpl; [| discriminate].
  destruct (String.eqb_spec t "") as [-> | Hne]; simpl; [discriminate |].
  intros [= <-]. now exists t.
Qed.

Lemma hourly_body_None (hourly : Hourly) (dayIndex s i : Z) :
  hourly_body hourly dayIndex s i = None ->
  truthy_str (lookup (hourly_time hourly) i) = false.
Proof.
  unfold hourly_body. destruct (truthy_str (lookup (hourly_time hourly) i)) eqn:Ht; [| reflexivity].
  destruct (lookup (hourly_time hourly) i); discriminate.
Qed.

Lemma hourly_body_truthy (hourly : Hourly) (dayIndex s i : Z) (t : string) :
  lookup (hourly_time hourly) i = Some t -> t <> "" ->
  hourly_body hourly dayIndex s i = Some (hour_card hourly dayIndex s i t).
Proof.
  intros Ht Hne. unfold hourly_body. rewrite Ht. simpl.
  now destruct (String.eqb_spec t "").
Qed.

Lemma renderHourly_unfold (hourly : Hourly) (dayIndex : Z) (daily : option Daily) (now : Date) :
  renderHourly hourly dayIndex daily now =
  for_loop 24 (hourly_start hourly dayIndex daily now)
    (hourly_body hourly dayIndex (hourly_start hourly dayIndex daily now)).
Proof.
  unfold renderHourly, for_range.
  now replace (hourly_start hourly dayIndex daily now + 24 - hourly_start hourly dayIndex daily now)
    with 24 by lia.
Qed.

(** The strip starts inside the array, or at 0. *)
Lemma hourly_start_range (hourly : Hourly) (dayIndex : Z) (daily : option Daily) (now : Date) :
  0 <= hourly_start hourly dayIndex daily now <= Z.of_nat (List.length (hourly_time hourly)).
Proof.
  unfold hourly_start.
  destruct (dayIndex =? -1); [| destruct daily as [d |]; [| lia]].
  - destruct (start_or_zero (fun t => Date_gt (Date_parse (Some t)) now) (hourly_time hourly))
      as [Hfirst | [_ ->]]; [apply first_match_range in Hfirst |]; lia.
  - destruct (start_or_zero (fun t => startsWith t (lookup (daily_time d) dayIndex))
                (hourly_time hourly))
      as [Hfirst | [_ ->]]; [apply first_match_range in Hfirst |]; lia.
Qed.

(** The card at position [k] of the strip is the card of the hourly
    entry [k] places after the start. *)
Lemma renderHourly_nth (hourly : Hourly) (dayIndex : Z) (daily : option Daily) (now : Date)
    (k : nat) (c : HourCard) :
  nth_error (renderHourly hourly dayIndex daily now) k = Some c ->
  exists t,
    lookup (hourly_time hourly) (hourly_start hourly dayIndex daily now + Z.of_nat k) = Some t /\
    t <> "" /\
    c = hour_card hourly dayIndex (hourly_start hourly dayIndex daily now)
          (hourly_start hourly dayIndex daily now + Z.of_nat k) t.
Proof.
  rewrite renderHourly_unfold. intros Hk. apply for_loop_nth in Hk.
  now apply hourly_body_Some in Hk.
Qed.

Lemma renderHourly_first (hourly : Hourly) (dayIndex : Z) (daily : option Daily) (now : Date)
    (t : string) :
  lookup (hourly_time hourly) (hourly_start hourly dayIndex daily now) = Some t -> t <> "" ->
  exists rest,
    renderHourly hourly dayIndex daily now =
    hour_card hourly dayIndex (hourly_start hourly dayIndex daily now)
      (hourly_start hourly dayIndex daily now) t :: rest.
Proof.
  intros Ht Hne. rewrite renderHourly_unfold.
  apply for_loop_first. now apply hourly_body_truthy.
Qed.

(** C4: whatever the payload, the slot and the start index computed for
    it, the strip has at most 24 cards; its cards are those of the
    entries that exist from the start index on, so with fewer than 24
    left it ends at the last one, and it ends before 24 only at an entry
    that is missing (or empty).  The function is total: no input makes it
    fail. *)
Theorem renderHourly_window (hourly : Hourly) (dayIndex : Z) (daily : option Daily) (now : Date) :
  let s := hourly_start hourly dayIndex daily now in
  let cards := renderHourly hourly dayIndex daily now in
  (List.length cards <= 24)%nat /\
  s + Z.of_nat (List.length cards) <= Z.of_nat (List.length (hourly_time hourly)) /\
  (forall k c, nth_error cards k = Some c ->
     exists t, lookup (hourly_time hourly) (s + Z.of_nat k) = Some t /\
               c = hour_card hourly dayIndex s (s + Z.of_nat k) t) /\
  (List.length cards = 24%nat \/
   truthy_str (lookup (hourly_time hourly) (s + Z.of_nat (List.length cards))) = false).
Proof.
  intros s cards. repeat split.
  - subst cards. rewrite renderHourly_unfold. apply for_loop_length.
  - pose proof (hourly_start_range hourly dayIndex daily now) as Hs. fold s in Hs.
    destruct (List.length cards) as [| n] eqn:Hlen; [lia |].
    destruct (nth_error cards n) as [c |] eqn:Hc.
    + apply renderHourly_nth in Hc as (t & Ht & _). fold s in Ht.
      apply lookup_Some_range in Ht. lia.
    + apply nth_error_None in Hc. lia.
  - intros k c Hk. apply renderHourly_nth in Hk as (t & Ht & _ & Hc). now exists t.
  - subst cards. rewrite renderHourly_unfold.
    destruct (for_loop_stop (hourly_body hourly dayIndex s) 24 s) as [Hlen | Hbreak];
      [now left | right].
    now apply hourly_body_None in Hbreak.
Qed.

(** C5: in the current view the strip starts at the first hourly entry
    whose timestamp is after the current time, at index 0 when no
    timestamp is; its cards are those of the entries from there on, and
    the first card shown is labelled "Now" instead of its clock time. *)
Theorem current_window (hourly : Hourly) (daily : option Daily) (now : Date) :
  let after := fun t => Date_gt (Date_parse (Some t)) now in
  let s := hourly_start hourly (-1) daily now in
  let cards := renderHourly hourly (-1) daily now in
  (first_match after (hourly_time hourly) s \/ (no_match after (hourly_time hourly) /\ s = 0)) /\
  (forall k c, nth_error cards k = Some c ->
     exists t, lookup (hourly_time hourly) (s + Z.of_nat k) = Some t /\
               c = hour_card hourly (-1) s (s + Z.of_nat k) t) /\
  (forall c rest, cards = c :: rest -> h_time c = "Now") /\
  (forall t, lookup (hourly_time hourly) s = Some t -> t <> "" ->
     exists c rest, cards = c :: rest).
Proof.
  intros after s cards. repeat split.
  - subst s. unfold hourly_start. simpl. apply start_or_zero.
  - intros k c Hk. apply renderHourly_nth in Hk as (t & Ht & _ & Hc). now exists t.
  - intros c rest Hcards.
    assert (Hc : nth_error cards 0 = Some c) by now rewrite Hcards.
    apply renderHourly_nth in Hc as (t & _ & _ & ->).
    unfold hour_card. simpl. now rewrite Z.add_0_r, Z.eqb_refl.
  - intros t Ht Hne. destruct (renderHourly_first hourly (-1) daily now t Ht Hne) as [rest Hrest].
    eauto.
Qed.

(** C6: in the view of day [i] of the forecast the strip starts at the
    first hourly entry whose timestamp begins with the date of that day,
    at index 0 when no timestamp does; its cards are those of the entries
    from there on, the first card being the card of the entry at the
    start whenever that entry is there, and each carries its clock label,
    none "Now". *)
Theorem day_window (hourly : Hourly) (daily : Daily) (i : Z) (now : Date) :
  0 <= i < Z.of_nat (List.length (daily_time daily)) ->
  exists target,
    lookup (daily_time daily) i = Some target /\
    let on_day := fun t => String.prefix target t in
    let s := hourly_start hourly i (Some daily) now in
    let cards := renderHourly hourly i (Some daily) now in
    (first_match on_day (hourly_time hourly) s \/
     (no_match on_day (hourly_time hourly) /\ s = 0)) /\
    (forall k c, nth_error cards k = Some c ->
       exists t, lookup (hourly_time hourly) (s + Z.of_nat k) = Some t /\
                 c = hour_card hourly i s (s + Z.of_nat k) t /\
                 h_time c = hour_label (getHours (Date_parse (Some t))) /\
                 h_time c <> "Now") /\
    (forall t, lookup (hourly_time hourly) s = Some t -> t <> "" ->
       exists rest, cards = hour_card hourly i s s t :: rest) /\
    (target <> "" -> first_match on_day (hourly_time hourly) s ->
       exists t rest,
         lookup (hourly_time hourly) s = Some t /\ String.prefix target t = true /\
         cards = hour_card hourly i s s t :: rest).
Proof.
  intros Hi. destruct (lookup_in_range (daily_time daily) i Hi) as [target Htarget].
  exists target. split; [assumption |]. intros on_day s cards.
  assert (Hday : (i =? -1) = false) by (apply Z.eqb_neq; lia).
  assert (Hfirst : forall t, lookup (hourly_time hourly) s = Some t -> t <> "" ->
                     exists rest, cards = hour_card hourly i s s t :: rest).
  { intros t Ht Hne. exact (renderHourly_first hourly i (Some daily) now t Ht Hne). }
  split; [| split; [| split]].
  - subst s. unfold hourly_start. rewrite Hday, Htarget. apply start_or_zero.
  - intros k c Hk. apply renderHourly_nth in Hk as (t & Ht & _ & Hc). exists t.
    assert (Hlabel : h_time c = hour_label (getHours (Date_parse (Some t)))).
    { rewrite Hc. unfold hour_card. simpl. now rewrite Hday. }
    repeat split; auto. rewrite Hlabel. apply hour_label_not_Now.
  - exact Hfirst.
  - intros Htarget_ne (t & Ht & Hprefix & _).
    assert (Hne : t <> "").
    { intros ->. subst on_day. destruct target; [congruence | discriminate]. }
    destruct (Hfirst t Ht Hne) as [rest Hrest]. now exists t, rest.
Qed.

(** ** The main card *)

(** C3, as amended: two renders of one payload and one slot agree on
    every field of the view but the date line and the hourly strip,
    whatever the wall clock reads.  The date line is the same when the
    slot is a day of the forecast or the clock reads the same at line
    122, the strip when the slot is a day or the clock reads the same at
    line 183; so the views are identical for a day of the forecast, and
    in the current view when the clock reads the same. *)
Theorem renderMainView_clock (data : WeatherData) (index : Z) (c1 c2 : Clock) :
  let v1 := renderMainView data index c1 in
  let v2 := renderMainView data index c2 in
  (el_cityName v1 = el_cityName v2 /\
   el_conditionDesc v1 = el_conditionDesc v2 /\
   el_tempNow v1 = el_tempNow v2 /\
   deg_display v1 = deg_display v2 /\
   weatherIcon_src v1 = weatherIcon_src v2 /\
   el_precip v1 = el_precip v2 /\
   el_humidity v1 = el_humidity v2 /\
   el_wind v1 = el_wind v2 /\
   el_uv v1 = el_uv v2 /\
   body_className v1 = body_className v2) /\
  (index <> -1 \/ now_header c1 = now_header c2 -> el_currentDay v1 = el_currentDay v2) /\
  (index <> -1 \/ now_hourly c1 = now_hourly c2 -> hourlyWrapper v1 = hourlyWrapper v2) /\
  (index <> -1 \/ (now_header c1 = now_header c2 /\ now_hourly c1 = now_hourly c2) ->
   v1 = v2).
Proof.
  intros v1 v2. subst v1 v2. unfold renderMainView, renderHourly, hourly_start.
  destruct (Z.eqb_spec index (-1)) as [-> | Hday]; cbn.
  - split; [repeat split |]. split; [| split].
    + intros [Hne | ->]; [contradiction | reflexivity].
    + intros [Hne | ->]; [contradiction | reflexivity].
    + intros [Hne | [-> ->]]; [contradiction | reflexivity].
  - repeat split.
Qed.

(** C8: in the view of any day of the forecast the humidity field is
    the text "--", whatever the payload holds; it is not a percentage,
    the form the current view gives the field. *)
Theorem day_humidity_placeholder (data : WeatherData) (i : Z) (clock : Clock) :
  0 <= i < Z.of_nat (List.length (daily_time (daily (forecast data)))) ->
  el_humidity (renderMainView data i clock) = "--" /\
  forall s, el_humidity (renderMainView data i clock) <> s ++ "%".
Proof.
  intros Hi.
  assert (Hday : (i =? -1) = false) by (apply Z.eqb_neq; lia).
  assert (Hdash : el_humidity (renderMainView data i clock) = "--").
  { unfold renderMainView. now rewrite Hday. }
  split; [assumption |]. rewrite Hdash. intros s Heq.
  assert (Hlen : String.length s = 1%nat).
  { apply (f_equal String.length) in Heq. rewrite append_length in Heq. simpl in Heq. lia. }
  destruct s as [| a [| b s]]; simpl in Hlen; try discriminate.
Qed.

(** The current view shows the humidity of the payload. *)
Lemma current_humidity (data : WeatherData) (clock : Clock) :
  el_humidity (renderMainView data (-1) clock) =
  Number_toString (current_relative_humidity_2m (current (forecast data))) ++ "%".
Proof. reflexivity. Qed.

(** ** Manual search *)

Lemma set_status_keeps_payload (msg : string) (st : App) :
  weatherData (set_status msg st) = weatherData st /\
  main_view (dom (set_status msg st)) = main_view (dom st) /\
  statusText (dom (set_status msg st)) = msg.
Proof. repeat split. Qed.


(** C10: when the search box is empty or holds white space only the
    handler returns at once: it sends no request and leaves the whole
    state, status message, stored payload and view, as it was. *)
Theorem blank_search_ignored (st : App) :
  all_space (citySearch_value (dom st)) = true ->
  handleManualSearch st = Done st /\
  forall w : World, run w (handleManualSearch st) = (st, []).
Proof.
  intros Hblank.
  assert (Hdone : handleManualSearch st = Done st).
  { unfold handleManualSearch. now rewrite (trim_all_space _ Hblank). }
  split; [assumption |]. intros w. now rewrite Hdone.
Qed.

End Views.

(** * Further properties of the controller *)

(** ** Classification outside the table *)

Lemma parseWeather_theme_night (code : option Z) (isDay : Z) :
  theme (parseWeather code isDay) = "night" <-> code = Some 0 /\ truthy isDay = false.
Proof.
  unfold parseWeather. destruct code as [c |]; simpl.
  - destruct (Z.eqb_spec c 0) as [-> | Hc]; simpl.
    + destruct (truthy isDay); split; try discriminate; intuition congruence.
    + repeat match goal with |- context [if ?b then _ else _] => destruct b end; simpl;
        split; try discriminate; intros [[= ->] _]; congruence.
  - split; [discriminate | intros [[=] _]].
Qed.

(** X1: whatever the code, missing and out-of-range ones included, the
    label is one of the seven of the table and the theme one of clear,
    night, cloudy and rain; the theme is night exactly for code 0 with a
    flag that is not day, and clear exactly for code 0 by day. *)
Theorem parseWeather_themes (code : option Z) (isDay : Z) :
  In (label (parseWeather code isDay))
     ["Clear Sky"; "Partly Cloudy"; "Foggy"; "Rain"; "Snowfall"; "Thunderstorm"; "Cloudy"] /\
  In (theme (parseWeather code isDay)) ["clear"; "night"; "cloudy"; "rain"] /\
  (theme (parseWeather code isDay) = "night" <-> code = Some 0 /\ truthy isDay = false) /\
  (theme (parseWeather code isDay) = "clear" <-> code = Some 0 /\ truthy isDay = true).
Proof.
  split; [| split; [| split; [apply parseWeather_theme_night |]]];
    unfold parseWeather; destruct code as [c |]; simpl;
    try destruct (Z.eqb_spec c 0) as [-> | Hc]; simpl;
    repeat match goal with |- context [if ?b then _ else _] => destruct b end; simpl;
    try tauto;
    try (split; [try discriminate; auto | intros [Hcode Hday]; try discriminate; congruence]).
Qed.

(** X2: the edges of the cascade: a negative code passes the test of line
    263 and is "Partly Cloudy", every code from 95 up, beyond 99 too, is
    "Thunderstorm", and a missing code fails every test and is "Cloudy". *)
Theorem parseWeather_edges (isDay : Z) :
  (forall c, c < 0 -> label (parseWeather (Some c) isDay) = "Partly Cloudy") /\
  (forall c, 95 <= c -> label (parseWeather (Some c) isDay) = "Thunderstorm") /\
  label (parseWeather None isDay) = "Cloudy".
Proof.
  repeat split; intros; unfold parseWeather, num_cmp;
    split_code; simpl; try reflexivity; lia.
Qed.

(** ** Clock labels across the day *)

Lemma hour_in_day (h : Z) : 0 <= h <= 23 -> In h hours_of_day.
Proof.
  intros Hh. unfold hours_of_day. apply in_map_iff. exists (Z.to_nat h).
  split; [lia | apply in_seq; lia].
Qed.

(** X3: over the hours 0 to 23 the label of line 198 tells every hour
    from every other, but for one pair: midnight and noon carry the same
    label. *)
Theorem hour_label_collision (h1 h2 : Z) :
  0 <= h1 -> h1 < h2 -> h2 <= 23 ->
  (hour_label (Some h1) = hour_label (Some h2) <-> h1 = 0 /\ h2 = 12).
Proof.
  intros H1 H12 H2.
  assert (Hall : forallb (fun a => forallb (fun b =>
            implb (a <? b)
              (Bool.eqb (hour_label (Some a) =? hour_label (Some b))%string
                        ((a =? 0) && (b =? 12))))
            hours_of_day) hours_of_day = true) by (vm_compute; reflexivity).
  rewrite forallb_forall in Hall. specialize (Hall h1 (hour_in_day h1 ltac:(lia))).
  rewrite forallb_forall in Hall. specialize (Hall h2 (hour_in_day h2 ltac:(lia))).
  assert (Hlt : (h1 <? h2) = true) by (apply Z.ltb_lt; lia).
  rewrite Hlt in Hall. simpl in Hall. apply Bool.eqb_prop in Hall.
  split.
  - intros Heq. apply String.eqb_eq in Heq. rewrite Heq in Hall. symmetry in Hall.
    apply andb_true_iff in Hall as [Ha Hb]. split; lia.
  - intros [-> ->]. reflexivity.
Qed.

(** ** Names of places *)

Lemma append_assoc (a b c : string) : (a ++ b) ++ c = a ++ b ++ c.
Proof. induction a as [| x a IH]; simpl; [reflexivity | now rewrite IH]. Qed.

Lemma append_nonempty (a b : string) : a <> "" -> a ++ b <> "".
Proof. destruct a; [congruence | discriminate]. Qed.

Lemma or_chain_first (a b c d : option string) (default : string) :
  or_default (or_else (or_else (or_else a b) c) d) default = first_nonempty [a; b; c; d] default.
Proof.
  unfold or_default, or_else. simpl.
  destruct (truthy_str a) eqn:Ha; simpl; rewrite ?Ha; [now destruct a |].
  destruct (truthy_str b) eqn:Hb; simpl; rewrite ?Hb; [now destruct b |].
  destruct (truthy_str c) eqn:Hc; simpl; rewrite ?Hc; [now destruct c |].
  destruct (truthy_str d) eqn:Hd; simpl; rewrite ?Hd; [now destruct d | reflexivity].
Qed.

Lemma first_nonempty_nonempty (fields : list (option string)) (default : string) :
  default <> "" -> first_nonempty fields default <> "".
Proof.
  intros Hd. induction fields as [| f fields IH]; simpl; [assumption |].
  destruct f as [s |]; simpl; [| assumption].
  destruct (String.eqb_spec s ""); simpl; assumption.
Qed.

Lemma postcode_suffix (name : string) (a : Address) :
  (if truthy_str (postcode a)
   then name ++ ", " ++ match postcode a with Some p => p | None => "" end
   else name) = with_postcode name a.
Proof.
  unfold with_postcode. destruct (postcode a) as [p |]; simpl; [| reflexivity].
  now destruct (p =? "")%string.
Qed.

Lemma with_postcode_nonempty (name : string) (a : Address) :
  name <> "" -> with_postcode name a <> "".
Proof.
  intros Hn. unfold with_postcode. destruct (postcode a) as [p |]; [| assumption].
  destruct (p =? "")%string; [assumption | now apply append_nonempty].
Qed.

Lemma first_nonempty_found (fields : list (option string)) (d1 d2 : string) :
  existsb truthy_str fields = true -> first_nonempty fields d1 = first_nonempty fields d2.
Proof.
  induction fields as [| f fields IH]; simpl; [discriminate |].
  destruct (truthy_str f) eqn:Hf; simpl; [now destruct f | exact IH].
Qed.

(** X4: the name shown for a search result is the first of city, town,
    village and county that is present and not empty, "Unknown Location"
    when none is, followed by the postcode when there is one; it is never
    empty. *)
Theorem display_name_priority (a : Address) :
  display_name a =
    with_postcode (first_nonempty [city a; town a; village a; county a] "Unknown Location") a /\
  display_name a <> "".
Proof.
  assert (Heq : display_name a =
    with_postcode (first_nonempty [city a; town a; village a; county a] "Unknown Location") a).
  { unfold display_name. rewrite or_chain_first. apply postcode_suffix. }
  split; [exact Heq |]. rewrite Heq.
  apply with_postcode_nonempty, first_nonempty_nonempty. discriminate.
Qed.

(** X5: the reverse lookup always yields a name, never an empty one: "My
    Location" when the request fails or the answer has no address, and
    otherwise the name the search would show for the same address, with
    "My Location" in the place of "Unknown Location" when no locality is
    known. *)
Theorem location_name_fallback :
  location_name None = "My Location" /\
  location_name (Some {| reverse_address := None |}) = "My Location" /\
  (forall a,
     location_name (Some {| reverse_address := Some a |}) =
     with_postcode (first_nonempty [city a; town a; village a; county a] "My Location") a) /\
  (forall a,
     existsb truthy_str [city a; town a; village a; county a] = true ->
     location_name (Some {| reverse_address := Some a |}) = display_name a) /\
  (forall res, location_name res <> "").
Proof.
  assert (Hname : forall a,
     location_name (Some {| reverse_address := Some a |}) =
     with_postcode (first_nonempty [city a; town a; village a; county a] "My Location") a).
  { intros a. unfold location_name. simpl. rewrite or_chain_first. apply postcode_suffix. }
  repeat split; try reflexivity.
  - exact Hname.
  - intros a Hfound. rewrite Hname. unfold display_name.
    rewrite or_chain_first, postcode_suffix.
    now rewrite (first_nonempty_found _ "My Location" "Unknown Location" Hfound).
  - intros [[[a |]] |]; try discriminate.
    rewrite Hname. apply with_postcode_nonempty, first_nonempty_nonempty. discriminate.
Qed.

Section Pages.

Context {host : Host}.

(** ** The list of days *)

Lemma for_loop_all {A : Type} (f : Z -> A) :
  forall (n : nat) (i : Z),
    for_loop n i (fun j => Some (f j)) = map (fun k => f (i + Z.of_nat k)) (seq 0 n).
Proof.
  induction n as [| n IH]; intros i; [reflexivity |].
  cbn [for_loop seq map]. rewrite IH, <- seq_shift, map_map. f_equal.
  - f_equal. lia.
  - apply map_ext. intros k. f_equal. lia.
Qed.

Lemma nth_error_seq0 (n k j : nat) :
  nth_error (seq 0 n) k = Some j <-> (k < n)%nat /\ j = k.
Proof.
  split.
  - intros Hk.
    assert (Hlt : (k < n)%nat).
    { rewrite <- (length_seq n 0). apply nth_error_Some. congruence. }
    split; [assumption |].
    rewrite (nth_error_nth' _ 0%nat) in Hk by now rewrite length_seq.
    rewrite seq_nth in Hk by assumption. now injection Hk as <-.
  - intros [Hlt ->]. rewrite (nth_error_nth' _ 0%nat) by now rewrite length_seq.
    now rewrite seq_nth.
Qed.

Lemma renderDaily_map (daily : Daily) :
  renderDaily daily =
  map (fun k => day_row daily (Z.of_nat k)) (seq 0 (List.length (daily_time daily))).
Proof.
  unfold renderDaily, for_range. rewrite Z.sub_0_r, Nat2Z.id.
  rewrite (for_loop_all (day_row daily)). apply map_ext. intros k. now rewrite Z.add_0_l.
Qed.

(** X6: the list of days has one row for each date of the payload, in
    order, whatever the lengths of the other daily arrays; row [k] is
    built from entry [k] of each array, the first row is named "Today",
    and no row is highlighted. *)
Theorem renderDaily_rows (daily : Daily) :
  List.length (renderDaily daily) = List.length (daily_time daily) /\
  (forall k r, nth_error (renderDaily daily) k = Some r <->
               (k < List.length (daily_time daily))%nat /\ r = day_row daily (Z.of_nat k)) /\
  (forall r rest, renderDaily daily = r :: rest -> d_name r = "Today") /\
  (forall r, In r (renderDaily daily) -> row_background r = "").
Proof.
  rewrite renderDaily_map. split; [| split; [| split]].
  - now rewrite length_map, length_seq.
  - intros k r. rewrite nth_error_map. split.
    + destruct (nth_error (seq 0 (List.length (daily_time daily))) k) as [j |] eqn:Hk;
        [| discriminate].
      apply nth_error_seq0 in Hk as [Hlt ->]. simpl. intros [= <-]. now split.
    + intros [Hlt ->].
      now rewrite (proj2 (nth_error_seq0 (List.length (daily_time daily)) k k) (conj Hlt eq_refl)).
  - intros r rest Hrows. destruct (List.length (daily_time daily)); [discriminate |].
    simpl in Hrows. now injection Hrows as <- _.
  - intros r Hr. apply in_map_iff in Hr as (k & <- & _). reflexivity.
Qed.

(** ** The card of a day and its row *)

Lemma renderMainView_day (data : WeatherData) (index : Z) (c1 c2 : Clock) :
  index <> -1 -> renderMainView data index c1 = renderMainView data index c2.
Proof.
  intros Hday. apply Z.eqb_neq in Hday.
  unfold renderMainView, renderHourly, hourly_start. now rewrite Hday.
Qed.

(** X7: the card of day [i] shows what row [i] of the list shows: the
    same icon, the high and low temperatures of the row, and as
    precipitation the percentage of the row's badge when the row has one;
    its condition is the label of the day's code by day. *)
Theorem day_card_matches_row (data : WeatherData) (i : nat) (clock : Clock) :
  let v := renderMainView data (Z.of_nat i) clock in
  let r := day_row (daily (forecast data)) (Z.of_nat i) in
  weatherIcon_src v = d_icon r /\
  el_conditionDesc v =
    label (parseWeather (lookup (daily_weather_code (daily (forecast data))) (Z.of_nat i)) 1) /\
  (exists low, d_low r = low ++ degree /\
     el_tempNow v =
       InnerHTML ("<span style=" ++ dquote ++ "font-size: 0.6em" ++ dquote ++ ">"
                  ++ d_high r ++ " / " ++ low ++ "</span>")) /\
  (forall p, d_precip r = Some p -> el_precip v = p).
Proof.
  intros v r. subst v r.
  assert (Hday : (Z.of_nat i =? -1) = false) by (apply Z.eqb_neq; lia).
  unfold renderMainView, day_row. rewrite Hday. cbn [weatherIcon_src el_conditionDesc
    el_tempNow el_precip d_icon d_low d_high d_precip].
  repeat split.
  - eexists. split; [reflexivity |]. now rewrite append_assoc.
  - intros p. unfold show_number.
    destruct (lookup (daily_precipitation_probability_max (daily (forecast data))) (Z.of_nat i))
      as [q |]; [| discriminate].
    destruct (Qle_bool q 0); [discriminate | now intros [= <-]].
Qed.

Lemma parseWeather_theme_by_day (code : option Z) :
  In (theme (parseWeather code 1)) ["clear"; "cloudy"; "rain"].
Proof.
  unfold parseWeather. simpl.
  repeat match goal with |- context [if ?b then _ else _] => destruct b end; simpl; tauto.
Qed.

(** X8: the card of a forecast day takes the theme of its code by day,
    one of clear, cloudy and rain, and never the night theme, whatever
    the payload holds and whatever the hour at which it is shown. *)
Theorem day_card_by_day (data : WeatherData) (i : nat) (clock : Clock) :
  In (body_className (renderMainView data (Z.of_nat i) clock))
     ["theme-clear"; "theme-cloudy"; "theme-rain"] /\
  body_className (renderMainView data (Z.of_nat i) clock) <> "theme-night".
Proof.
  assert (Hday : (Z.of_nat i =? -1) = false) by (apply Z.eqb_neq; lia).
  unfold renderMainView. rewrite Hday. cbn [body_className]. split.
  - pose proof (parseWeather_theme_by_day
                  (lookup (daily_weather_code (daily (forecast data))) (Z.of_nat i))) as Hth.
    simpl in Hth. destruct Hth as [<- | [<- | [<- | []]]]; simpl; tauto.
  - intros Heq. injection Heq as Heq.
    apply parseWeather_theme_night in Heq as [_ Hflag]. discriminate.
Qed.

(** X9: the UV index of the current view is not a reading of the moment:
    it is the maximum of the first day of the forecast, the one the card
    of day 0 shows, and is the text "undefined" when the payload has no
    day. *)
Theorem current_uv_of_today (data : WeatherData) (clock clock' : Clock) :
  el_uv (renderMainView data (-1) clock) = el_uv (renderMainView data 0 clock') /\
  (daily_uv_index_max (daily (forecast data)) = [] ->
   el_uv (renderMainView data (-1) clock) = "undefined").
Proof.
  split; [reflexivity |]. intros Hempty. unfold renderMainView. simpl. now rewrite Hempty.
Qed.

(** ** The cards of the hourly strip *)

Lemma lookup_In {A : Type} (a : list A) (i : Z) (x : A) : lookup a i = Some x -> In x a.
Proof.
  unfold lookup. destruct (i <? 0); [discriminate |]. apply nth_error_In.
Qed.

Lemma lookup_None_range {A : Type} (a : list A) (i : Z) :
  0 <= i -> lookup a i = None -> Z.of_nat (List.length a) <= i.
Proof.
  intros Hi. unfold lookup. destruct (Z.ltb_spec i 0); [lia |].
  intros Hnone. apply nth_error_None in Hnone. lia.
Qed.

Lemma renderHourly_inside (hourly : Hourly) (dayIndex : Z) (daily : option Daily) (now : Date) :
  hourly_start hourly dayIndex daily now
    + Z.of_nat (List.length (renderHourly hourly dayIndex daily now))
  <= Z.of_nat (List.length (hourly_time hourly)).
Proof.
  pose proof (hourly_start_range hourly dayIndex daily now) as Hs.
  destruct (List.length (renderHourly hourly dayIndex daily now)) as [| n] eqn:Hlen; [lia |].
  destruct (nth_error (renderHourly hourly dayIndex daily now) n) as [c |] eqn:Hc.
  - apply renderHourly_nth in Hc as (t & Ht & _). apply lookup_Some_range in Ht. lia.
  - apply nth_error_None in Hc. lia.
Qed.

(** X10: on a payload none of whose timestamps is empty the strip has
    exactly as many cards as hourly entries are left from its start, and
    24 when more are left. *)
Theorem renderHourly_count (hourly : Hourly) (dayIndex : Z) (daily : option Daily) (now : Date) :
  forallb (fun t => negb (t =? "")%string) (hourly_time hourly) = true ->
  Z.of_nat (List.length (renderHourly hourly dayIndex daily now)) =
  Z.min 24 (Z.of_nat (List.length (hourly_time hourly))
            - hourly_start hourly dayIndex daily now).
Proof.
  intros Hfull.
  pose proof (hourly_start_range hourly dayIndex daily now) as Hs.
  pose proof (renderHourly_inside hourly dayIndex daily now) as Hin.
  assert (Hmax : (List.length (renderHourly hourly dayIndex daily now) <= 24)%nat)
    by (rewrite renderHourly_unfold; apply for_loop_length).
  assert (Hstop : List.length (renderHourly hourly dayIndex daily now) = 24%nat \/
                  Z.of_nat (List.length (hourly_time hourly))
                  <= hourly_start hourly dayIndex daily now
                     + Z.of_nat (List.length (renderHourly hourly dayIndex daily now))).
  { rewrite renderHourly_unfold.
    destruct (for_loop_stop (hourly_body hourly dayIndex (hourly_start hourly dayIndex daily now))
                24 (hourly_start hourly dayIndex daily now)) as [Hlen | Hbreak]; [now left |].
    right. apply hourly_body_None in Hbreak.
    destruct (lookup (hourly_time hourly) _) as [t |] eqn:Ht in Hbreak.
    - apply lookup_In in Ht. rewrite forallb_forall in Hfull. apply Hfull in Ht.
      simpl in Hbreak. congruence.
    - apply lookup_None_range in Ht; lia. }
  lia.
Qed.

(** X11: a card of the strip is labelled "Now" exactly when it is the
    first card of the current view; every other card carries the clock
    label of its own entry. *)
Theorem card_labelled_Now (hourly : Hourly) (dayIndex : Z) (daily : option Daily) (now : Date)
    (k : nat) (c : HourCard) :
  nth_error (renderHourly hourly dayIndex daily now) k = Some c ->
  (h_time c = "Now" <-> dayIndex = -1 /\ k = 0%nat) /\
  (h_time c <> "Now" ->
   exists t,
     lookup (hourly_time hourly) (hourly_start hourly dayIndex daily now + Z.of_nat k) = Some t /\
     h_time c = hour_label (getHours (Date_parse (Some t)))).
Proof.
  intros Hk. apply renderHourly_nth in Hk as (t & Ht & _ & ->).
  unfold hour_card. cbn [h_time].
  destruct (Z.eqb_spec dayIndex (-1)) as [-> | Hday]; simpl.
  - destruct (Z.eqb_spec (hourly_start hourly (-1) daily now + Z.of_nat k)
                (hourly_start hourly (-1) daily now)) as [Heq | Hne].
    + split; [split; [intros _; split; [reflexivity | lia] | reflexivity] | congruence].
    + split.
      * split; [intros Hnow; now apply hour_label_not_Now in Hnow | intros [_ ->]; lia].
      * intros _. now exists t.
  - split.
    + split; [intros Hnow; now apply hour_label_not_Now in Hnow | intros [Hcur _]; congruence].
    + intros _. now exists t.
Qed.

(** ** Searches that reach the network *)

(** What a search with a query that is not blank comes to, by the answers
    of the network. *)
Lemma run_search (w : World) (st : App) :
  trim (citySearch_value (dom st)) <> "" ->
  let val := trim (citySearch_value (dom st)) in
  let st1 := set_status ("Searching for " ++ val ++ "...") st in
  run w (handleManualSearch st) =
  match answer w _ (FetchSearch (search_url val)) with
  | None => (set_status "Search connection error." st1, [SentSearch (search_url val)])
  | Some [] => (set_status "City not found." st1, [SentSearch (search_url val)])
  | Some (data :: _) =>
      let sent := [SentSearch (search_url val);
                   SentForecast (forecast_url (lat data) (lon data))] in
      match answer w _ (FetchForecast (forecast_url (lat data) (lon data))) with
      | None => (set_status "Weather data unavailable." st1, sent)
      | Some ErrorObject =>
          ({| dom := setLoadingState "Weather data unavailable." (populateUI_panels (dom st1));
              weatherData := Some (NoForecast (display_name (address data))) |}, sent)
      | Some (ForecastOf f) =>
          let wd := {| forecast := f; cityName := display_name (address data) |} in
          ({| dom := populateUI wd (clock_reads w) (dom st1);
              weatherData := Some (Payload wd) |}, sent)
      end
  end.
Proof.
  intros Hval val st1. unfold handleManualSearch. fold val. simpl.
  destruct (String.eqb_spec val "") as [Heq | _]; [contradiction |]. simpl.
  destruct (answer w _ (FetchSearch (search_url val))) as [[| data rest] |]; simpl;
    try reflexivity.
  now destruct (answer w _ (FetchForecast (forecast_url (lat data) (lon data)))) as [[f |] |].
Qed.

(** X12: a search the geocoder answers with results and the forecast
    service with a payload sends two requests, the search and then the
    forecast for the coordinates of the first result; it stores the
    payload under the name of that result, shows the current view and
    the list of days of that payload, and leaves the weather panel on
    screen and the status panel off.  The other results are not used. *)
Theorem search_found (w : World) (st : App) (data : SearchResult) (rest : list SearchResult)
    (f : Forecast) :
  trim (citySearch_value (dom st)) <> "" ->
  answer w _ (FetchSearch (search_url (trim (citySearch_value (dom st))))) = Some (data :: rest) ->
  answer w _ (FetchForecast (forecast_url (lat data) (lon data))) = Some (ForecastOf f) ->
  let r := run w (handleManualSearch st) in
  let wd := {| forecast := f; cityName := display_name (address data) |} in
  snd r = [SentSearch (search_url (trim (citySearch_value (dom st))));
           SentForecast (forecast_url (lat data) (lon data))] /\
  weatherData (fst r) = Some (Payload wd) /\
  main_view (dom (fst r)) = renderMainView wd (-1) (clock_reads w) /\
  dailyWrapper (dom (fst r)) = renderDaily (daily f) /\
  shown (weatherApp (dom (fst r))) = true /\
  shown (statusDiv (dom (fst r))) = false.
Proof.
  intros Hval Hsearch Hforecast r wd. subst r.
  rewrite (run_search w st Hval). cbv zeta. rewrite Hsearch, Hforecast.
  repeat split.
Qed.

(** X13: when the search request fails the handler ends with the status
    "Search connection error." after one request and the stored payload
    is as before.  When a place is found and the forecast request fails,
    or the service answers it with its error object, the handler ends on
    the status panel with "Weather data unavailable." after two requests.
    In all these cases the main card and the list of days stay as they
    were; the stored payload stays too when the request failed, but the
    error object takes its place, under the name of the place found,
    when the service sent that: line 80 stores before [populateUI]
    raises. *)
Theorem search_failures (w : World) (st : App) :
  trim (citySearch_value (dom st)) <> "" ->
  let val := trim (citySearch_value (dom st)) in
  let r := run w (handleManualSearch st) in
  (answer w _ (FetchSearch (search_url val)) = None ->
   statusText (dom (fst r)) = "Search connection error." /\
   snd r = [SentSearch (search_url val)] /\
   weatherData (fst r) = weatherData st /\
   main_view (dom (fst r)) = main_view (dom st) /\
   dailyWrapper (dom (fst r)) = dailyWrapper (dom st)) /\
  (forall data rest,
     answer w _ (FetchSearch (search_url val)) = Some (data :: rest) ->
     (answer w _ (FetchForecast (forecast_url (lat data) (lon data))) = None ->
      weatherData (fst r) = weatherData st) /\
     (answer w _ (FetchForecast (forecast_url (lat data) (lon data))) = Some ErrorObject ->
      weatherData (fst r) = Some (NoForecast (display_name (address data)))) /\
     (answer w _ (FetchForecast (forecast_url (lat data) (lon data))) = None \/
      answer w _ (FetchForecast (forecast_url (lat data) (lon data))) = Some ErrorObject ->
      statusText (dom (fst r)) = "Weather data unavailable." /\
      snd r = [SentSearch (search_url val); SentForecast (forecast_url (lat data) (lon data))] /\
      shown (statusDiv (dom (fst r))) = true /\
      shown (weatherApp (dom (fst r))) = false /\
      main_view (dom (fst r)) = main_view (dom st) /\
      dailyWrapper (dom (fst r)) = dailyWrapper (dom st))).
Proof.
  intros Hval val r. subst r. rewrite (run_search w st Hval). cbv zeta. fold val.
  split.
  - intros ->. now repeat split.
  - intros data rest ->. split; [| split].
    + now intros ->.
    + now intros ->.
    + intros [-> | ->]; now repeat split.
Qed.

(** X14: however the network answers, a search with a query that is not
    blank ends with exactly one of the two panels on screen: the weather
    panel when a payload was fetched and stored, the status panel in
    every other case. *)
Theorem search_one_panel (w : World) (st : App) :
  trim (citySearch_value (dom st)) <> "" ->
  let d := dom (fst (run w (handleManualSearch st))) in
  xorb (shown (statusDiv d)) (shown (weatherApp d)) = true /\
  (shown (weatherApp d) = true <->
   exists data rest f,
     answer w _ (FetchSearch (search_url (trim (citySearch_value (dom st)))))
       = Some (data :: rest) /\
     answer w _ (FetchForecast (forecast_url (lat data) (lon data))) = Some (ForecastOf f)).
Proof.
  intros Hval d. subst d. rewrite (run_search w st Hval). cbv zeta.
  destruct (answer w _ (FetchSearch _)) as [[| data rest] |]; simpl.
  - split; [reflexivity |]. split; [discriminate | intros (? & ? & ? & [=] & _)].
  - destruct (answer w _ (FetchForecast (forecast_url (lat data) (lon data))))
      as [[f |] |] eqn:Hf; simpl.
    + split; [reflexivity |]. split; [| reflexivity]. intros _. now exists data, rest, f.
    + split; [reflexivity |]. split; [discriminate |].
      intros (d' & r' & f' & [= <- <-] & Hf'). congruence.
    + split; [reflexivity |]. split; [discriminate |].
      intros (d' & r' & f' & [= <- <-] & Hf'). congruence.
  - split; [reflexivity |]. split; [discriminate | intros (? & ? & ? & [=] & _)].
Qed.

(** ** Clicks on the rows and the cards *)

Lemma set_background_twice (a b : string) (r : DayRow) :
  set_background a (set_background b r) = set_background a r.
Proof. reflexivity. Qed.

Lemma reset_highlight (bg : string) (i : nat) (rows : list DayRow) :
  map (set_background bg) (highlight_row i rows) = map (set_background bg) rows.
Proof.
  revert i. induction rows as [| r rows IH]; intros [| i]; simpl; try reflexivity.
  now rewrite IH.
Qed.

Lemma reset_reset (a b : string) (rows : list DayRow) :
  map (set_background a) (map (set_background b) rows) = map (set_background a) rows.
Proof. rewrite map_map. now apply map_ext. Qed.

Lemma highlight_row_length (i : nat) (rows : list DayRow) :
  List.length (highlight_row i rows) = List.length rows.
Proof.
  revert i. induction rows as [| r rows IH]; intros [| i]; simpl; try reflexivity.
  now rewrite IH.
Qed.

Lemma highlight_row_nth (i : nat) (rows : list DayRow) (j : nat) (r : DayRow) :
  (forall x, In x rows -> row_background x = "rgba(255,255,255,0.4)") ->
  nth_error (highlight_row i rows) j = Some r ->
  row_background r = if (j =? i)%nat then "rgba(255,255,255,0.9)" else "rgba(255,255,255,0.4)".
Proof.
  revert i j. induction rows as [| x rows IH]; intros i j Hall.
  - destruct i, j; discriminate.
  - destruct i as [| i], j as [| j]; simpl.
    + now intros [= <-].
    + intros Hj. apply Hall. right. now apply nth_error_In in Hj.
    + intros [= <-]. apply Hall. now left.
    + apply IH. intros y Hy. apply Hall. now right.
Qed.

(** X15: a click on row [i] of the list, with a payload stored, shows
    the card of day [i]; it keeps the number of rows, highlights row [i]
    and no other, and leaves the stored payload, the panels and the status
    as they were. *)
Theorem click_day_row_selects (i : nat) (clock : Clock) (st : App) (data : WeatherData) :
  weatherData st = Some (Payload data) ->
  let st' := click_day_row i clock st in
  main_view (dom st') = renderMainView data (Z.of_nat i) clock /\
  List.length (dailyWrapper (dom st')) = List.length (dailyWrapper (dom st)) /\
  (forall j r, nth_error (dailyWrapper (dom st')) j = Some r ->
     row_background r =
       if (j =? i)%nat then "rgba(255,255,255,0.9)" else "rgba(255,255,255,0.4)") /\
  weatherData st' = weatherData st /\
  statusDiv (dom st') = statusDiv (dom st) /\
  weatherApp (dom st') = weatherApp (dom st) /\
  statusText (dom st') = statusText (dom st).
Proof.
  intros Hdata st'. subst st'. unfold click_day_row. rewrite Hdata. simpl.
  repeat split.
  - now rewrite highlight_row_length, length_map.
  - intros j r. apply highlight_row_nth.
    intros x Hx. apply in_map_iff in Hx as (y & <- & _). reflexivity.
Qed.

(** X16: of a series of clicks only the last counts: a click on a row
    after any other click gives the state the click alone gives, a click
    on an hour card undoes the selection of a day altogether, and the
    clock does not matter to a click on a row. *)
Theorem last_click_wins (i j : nat) (c c' : Clock) (st : App) :
  click_day_row j c (click_day_row i c' st) = click_day_row j c st /\
  click_day_row j c (click_hour_card c' st) = click_day_row j c st /\
  click_hour_card c (click_day_row i c' st) = click_hour_card c st /\
  click_day_row j c st = click_day_row j c' st.
Proof.
  assert (Hday : forall data, renderMainView data (Z.of_nat j) c
                              = renderMainView data (Z.of_nat j) c')
    by (intros data; apply renderMainView_day; lia).
  unfold click_day_row, click_hour_card, show_slot.
  destruct (weatherData st) as [[data | name] |] eqn:Hdata; simpl; rewrite ?Hdata; simpl;
    try (repeat split; reflexivity).
  rewrite reset_highlight, !reset_reset, Hday. repeat split.
Qed.

(** ** The header and the stored payload *)

Lemma renderMainView_city (data : WeatherData) (index : Z) (clock : Clock) :
  el_cityName (renderMainView data index clock) = cityName data.
Proof. unfold renderMainView. now destruct (index =? -1). Qed.

(** X17: once the header of the main card names the city of what is
    stored it does so after every click, and after every search but one
    that the forecast service answers with its error object.  Such a
    search stores the error object under the name of the place found
    (line 80) and raises before the header is written (line 146): the
    header keeps the name it had. *)
Theorem header_stays_synced (st : App) :
  header_synced st ->
  (forall w,
     (forall data rest,
        answer w _ (FetchSearch (search_url (trim (citySearch_value (dom st)))))
          = Some (data :: rest) ->
        answer w _ (FetchForecast (forecast_url (lat data) (lon data))) <> Some ErrorObject) ->
     header_synced (fst (run w (handleManualSearch st)))) /\
  (forall c, header_synced (click_hour_card c st)) /\
  (forall i c, header_synced (click_day_row i c st)) /\
  (forall w data rest,
     trim (citySearch_value (dom st)) <> "" ->
     answer w _ (FetchSearch (search_url (trim (citySearch_value (dom st)))))
       = Some (data :: rest) ->
     answer w _ (FetchForecast (forecast_url (lat data) (lon data))) = Some ErrorObject ->
     option_map stored_name (weatherData (fst (run w (handleManualSearch st))))
       = Some (display_name (address data)) /\
     el_cityName (main_view (dom (fst (run w (handleManualSearch st)))))
       = el_cityName (main_view (dom st))).
Proof.
  intros Hsync. split; [| split; [| split]].
  - intros w Hservice. unfold handleManualSearch.
    destruct (negb (truthy_str (Some (trim (citySearch_value (dom st)))))) eqn:Hblank;
      [exact Hsync |].
    cbn [run fst]. unfold search_answered.
    destruct (answer w _ (FetchSearch _)) as [[| data rest] |] eqn:Hsearch; try exact Hsync.
    unfold getWeather. cbn [run fst].
    destruct (answer w _ (FetchForecast _)) as [[f |] |] eqn:Hforecast;
      [reflexivity | | exact Hsync].
    now apply (Hservice data rest) in Hforecast.
  - intros c. unfold click_hour_card, header_synced in *.
    destruct (weatherData st) as [[data | name] |] eqn:Hdata; simpl; rewrite ?Hdata;
      [reflexivity | exact Hsync | exact I].
  - intros i c. unfold click_day_row, header_synced in *.
    destruct (weatherData st) as [[data | name] |] eqn:Hdata; simpl; rewrite ?Hdata;
      [apply renderMainView_city | exact Hsync | exact I].
  - intros w data rest Hval Hsearch Hforecast.
    rewrite (run_search w st Hval). cbv zeta. rewrite Hsearch, Hforecast. now split.
Qed.

(** ** Start-up *)

(** X18: a start-up that gets no position, the browser having no
    geolocation or refusing it, ends on the status panel with the message
    of its case; it sends nothing to the network and leaves the stored
    payload and the main card as they were. *)
Theorem initApp_without_position (e : Surroundings) (geolocation : bool) (st : App) :
  geolocation = false \/ position e = None ->
  let r := run_startup e (initApp geolocation st) in
  snd r = (if geolocation then [AskedPosition] else []) /\
  statusText (dom (fst r)) =
    (if geolocation then "Location denied. Please search manually."
     else "Geolocation not supported.") /\
  shown (statusDiv (dom (fst r))) = true /\
  shown (weatherApp (dom (fst r))) = false /\
  weatherData (fst r) = weatherData st /\
  main_view (dom (fst r)) = main_view (dom st).
Proof.
  intros Hcase r. subst r. unfold initApp.
  destruct geolocation; [| repeat split].
  destruct Hcase as [Hno | Hpos]; [discriminate |].
  cbn [run_startup]. rewrite Hpos. repeat split.
Qed.

(** X19: a start-up that gets a position asks for it, looks the place
    up and then fetches the forecast for the coordinates, whatever the
    lookup answers: a failed lookup does not stop the start-up, it only
    gives the payload the name "My Location".  When the forecast arrives
    it is stored under the name the lookup gave and the weather panel is
    on screen.  When the request fails the status reads "Weather data
    unavailable." and the stored payload is as before; when the service
    answers with its error object the status is the same, the main card
    is as before, and the error object is stored under the name the
    lookup gave. *)
Theorem initApp_with_position (e : Surroundings) (st : App) (coords : Coords) :
  position e = Some coords ->
  let r := run_startup e (initApp true st) in
  let lat := Number_toString (latitude coords) in
  let lon := Number_toString (longitude coords) in
  let name := location_name (reverse_answer e (reverse_url (latitude coords) (longitude coords))) in
  snd r = [AskedPosition;
           SentReverse (reverse_url (latitude coords) (longitude coords));
           Network (SentForecast (forecast_url lat lon))] /\
  (reverse_answer e (reverse_url (latitude coords) (longitude coords)) = None ->
   name = "My Location") /\
  (forall f,
     answer (network e) _ (FetchForecast (forecast_url lat lon)) = Some (ForecastOf f) ->
     weatherData (fst r) = Some (Payload {| forecast := f; cityName := name |}) /\
     el_cityName (main_view (dom (fst r))) = name /\
     shown (weatherApp (dom (fst r))) = true) /\
  (answer (network e) _ (FetchForecast (forecast_url lat lon)) = None ->
     weatherData (fst r) = weatherData st /\
     statusText (dom (fst r)) = "Weather data unavailable." /\
     shown (weatherApp (dom (fst r))) = false) /\
  (answer (network e) _ (FetchForecast (forecast_url lat lon)) = Some ErrorObject ->
     weatherData (fst r) = Some (NoForecast name) /\
     main_view (dom (fst r)) = main_view (dom st) /\
     statusText (dom (fst r)) = "Weather data unavailable." /\
     shown (weatherApp (dom (fst r))) = false).
Proof.
  intros Hpos r lat lon name. subst r. unfold initApp.
  cbn [run_startup]. rewrite Hpos. unfold reverseLookup. cbn [run_startup].
  fold name. unfold getWeather. cbn [run fst snd map]. fold lat lon.
  assert (Hname : reverse_answer e (reverse_url (latitude coords) (longitude coords)) = None ->
                  name = "My Location")
    by (intros Hnone; subst name; now rewrite Hnone).
  destruct (answer (network e) _ (FetchForecast (forecast_url lat lon))) as [[f |] |];
    cbn [run fst snd map sent];
    (split; [reflexivity | split; [exact Hname | split; [| split]]]).
  - intros f' [= <-]. repeat split.
  - discriminate.
  - discriminate.
  - intros f' [=].
  - discriminate.
  - intros _. repeat split.
  - intros f' [=].
  - intros _. repeat split.
  - discriminate.
Qed.

End Pages.

(** ** The properties on the reference host *)

Import Reference.

Lemma parseWeather_table_witness :
  0 <= 61 <= 99 /\
  label (parseWeather (Some 61) 0) = "Rain" /\ theme (parseWeather (Some 61) 0) = "rain".
Proof.
  split; [lia |].
  destruct (parseWeather_table 61 0 ltac:(lia)) as (_ & _ & _ & _ & _ & Hrain & _).
  apply Hrain. lia.
Defined.

(** At half past nine in the evening of May 1 the strip of the current
    view starts at the entry of ten o'clock; an hour later it starts at
    the entry of eleven. *)
Example current_start_moves :
  hourly_start (hourly sample_forecast) (-1) (Some (daily sample_forecast))
    (at_time "2024-05-01T21:30") = 0 /\
  hourly_start (hourly sample_forecast) (-1) (Some (daily sample_forecast))
    (at_time "2024-05-01T22:30") = 1.
Proof. split; reflexivity. Qed.

(** C3, as the specification states it, fails: two renders of the current view of one
    payload, the wall clock reading 21:30 at the first and 22:30 at the
    second, give different views (the date line and the hourly strip
    differ). *)
Lemma renderMainView_depends_on_clock :
  renderMainView sample_data (-1) (reading "2024-05-01T21:30") <>
  renderMainView sample_data (-1) (reading "2024-05-01T22:30").
Proof.
  intros Heq. apply (f_equal (fun v => List.length (hourlyWrapper v))) in Heq.
  vm_compute in Heq. discriminate.
Qed.

Lemma renderMainView_clock_witness :
  (1 <> -1 \/
   (now_header (reading "2024-05-01T21:30") = now_header (reading "2024-05-01T22:30") /\
    now_hourly (reading "2024-05-01T21:30") = now_hourly (reading "2024-05-01T22:30"))) /\
  renderMainView sample_data 1 (reading "2024-05-01T21:30") =
  renderMainView sample_data 1 (reading "2024-05-01T22:30").
Proof.
  assert (Hday : 1 <> -1) by lia.
  split; [now left |].
  apply (proj2 (proj2 (proj2 (renderMainView_clock sample_data 1
                                (reading "2024-05-01T21:30") (reading "2024-05-01T22:30"))))).
  now left.
Defined.

Lemma day_window_witness :
  0 <= 1 < Z.of_nat (List.length (daily_time (daily sample_forecast))) /\
  first_match (fun t => String.prefix "2024-05-02" t) (hourly_time (hourly sample_forecast))
    (hourly_start (hourly sample_forecast) 1 (Some (daily sample_forecast))
       (at_time "2024-05-01T21:30")).
Proof.
  assert (Hi : 0 <= 1 < Z.of_nat (List.length (daily_time (daily sample_forecast))))
    by (simpl; lia).
  split; [exact Hi |].
  destruct (day_window (hourly sample_forecast) (daily sample_forecast) 1
              (at_time "2024-05-01T21:30") Hi)
    as (target & Htarget & [Hfirst | [Hnone _]] & _).
  - injection Htarget as <-. exact Hfirst.
  - injection Htarget as <-.
    specialize (Hnone "2024-05-02T00:00" ltac:(simpl; auto)). discriminate Hnone.
Defined.

Lemma day_humidity_placeholder_witness :
  0 <= 1 < Z.of_nat (List.length (daily_time (daily (forecast sample_data)))) /\
  el_humidity (renderMainView sample_data 1 (reading "2024-05-01T21:30")) = "--".
Proof.
  assert (Hi : 0 <= 1 < Z.of_nat (List.length (daily_time (daily (forecast sample_data)))))
    by (simpl; lia).
  split; [exact Hi |].
  exact (proj1 (day_humidity_placeholder sample_data 1 (reading "2024-05-01T21:30") Hi)).
Defined.


Lemma blank_search_ignored_witness :
  all_space (citySearch_value (dom (page "   " (Some (Payload sample_data))))) = true /\
  run nothing_found (handleManualSearch (page "   " (Some (Payload sample_data))))
    = (page "   " (Some (Payload sample_data)), []).
Proof.
  split; [reflexivity |].
  exact (proj2 (blank_search_ignored (page "   " (Some (Payload sample_data))) eq_refl) nothing_found).
Defined.

(** Noon on the page: in the view of May 2 the card of the entry of
    twelve o'clock reads "12 AM". *)
Example noon_card :
  h_time (hour_card (hourly sample_forecast) 1 0 0 "2024-05-02T12:00") = "12 AM".
Proof. reflexivity. Qed.

(** ** The further properties on the reference host *)

Lemma renderHourly_count_witness :
  forallb (fun t => negb (t =? "")%string) (hourly_time long_hourly) = true /\
  Z.of_nat (List.length (renderHourly long_hourly (-1) None (at_time "2024-05-01T21:30"))) = 24.
Proof.
  assert (Hfull : forallb (fun t => negb (t =? "")%string) (hourly_time long_hourly) = true)
    by reflexivity.
  split; [exact Hfull |].
  rewrite (renderHourly_count long_hourly (-1) None (at_time "2024-05-01T21:30") Hfull).
  reflexivity.
Defined.

Lemma card_labelled_Now_witness :
  nth_error (renderHourly (hourly sample_forecast) (-1) None (at_time "2024-05-01T21:30")) 1
    = Some (hour_card (hourly sample_forecast) (-1) 0 1 "2024-05-01T23:00") /\
  h_time (hour_card (hourly sample_forecast) (-1) 0 1 "2024-05-01T23:00") = "11 PM" /\
  (h_time (hour_card (hourly sample_forecast) (-1) 0 1 "2024-05-01T23:00") = "Now"
   <-> -1 = -1 /\ 1%nat = 0%nat).
Proof.
  assert (Hcard :
    nth_error (renderHourly (hourly sample_forecast) (-1) None (at_time "2024-05-01T21:30")) 1
    = Some (hour_card (hourly sample_forecast) (-1) 0 1 "2024-05-01T23:00")) by reflexivity.
  split; [exact Hcard |]. split; [reflexivity |].
  exact (proj1 (card_labelled_Now _ _ _ _ _ _ Hcard)).
Defined.

Lemma search_found_witness :
  trim (citySearch_value (dom (page " Shimla " None))) <> "" /\
  answer all_found _ (FetchSearch (search_url (trim (citySearch_value (dom (page " Shimla " None))))))
    = Some [shimla; shimla_rural] /\
  answer all_found _ (FetchForecast (forecast_url (lat shimla) (lon shimla)))
    = Some (ForecastOf sample_forecast) /\
  weatherData (fst (run all_found (handleManualSearch (page " Shimla " None))))
    = Some (Payload {| forecast := sample_forecast; cityName := "Shimla, 171001" |}).
Proof.
  assert (Hval : trim (citySearch_value (dom (page " Shimla " None))) <> "") by discriminate.
  split; [exact Hval |]. split; [reflexivity |]. split; [reflexivity |].
  exact (proj1 (proj2 (search_found all_found (page " Shimla " None) shimla [shimla_rural]
                         sample_forecast Hval eq_refl eq_refl))).
Defined.

Lemma search_failures_witness :
  trim (citySearch_value (dom (page " Shimla " (Some (Payload sample_data))))) <> "" /\
  weatherData (fst (run forecast_down
                      (handleManualSearch (page " Shimla " (Some (Payload sample_data))))))
    = Some (Payload sample_data) /\
  weatherData (fst (run forecast_refused
                      (handleManualSearch (page " Shimla " (Some (Payload sample_data))))))
    = Some (NoForecast "Shimla, 171001") /\
  statusText (dom (fst (run forecast_refused
                          (handleManualSearch (page " Shimla " (Some (Payload sample_data)))))))
    = "Weather data unavailable.".
Proof.
  assert (Hval : trim (citySearch_value (dom (page " Shimla " (Some (Payload sample_data))))) <> "")
    by discriminate.
  split; [exact Hval |].
  destruct (search_failures forecast_down (page " Shimla " (Some (Payload sample_data))) Hval)
    as (_ & Hdown).
  destruct (search_failures forecast_refused (page " Shimla " (Some (Payload sample_data))) Hval)
    as (_ & Hrefused).
  destruct (Hdown shimla [] eq_refl) as (Hkept & _ & _).
  destruct (Hrefused shimla [] eq_refl) as (_ & Hreplaced & Hstatus).
  split; [exact (Hkept eq_refl) |]. split; [exact (Hreplaced eq_refl) |].
  exact (proj1 (Hstatus (or_intror eq_refl))).
Defined.

Lemma search_one_panel_witness :
  trim (citySearch_value (dom (page " Shimla " None))) <> "" /\
  shown (statusDiv (dom (fst (run offline (handleManualSearch (page " Shimla " None)))))) = true /\
  xorb (shown (statusDiv (dom (fst (run offline (handleManualSearch (page " Shimla " None)))))))
       (shown (weatherApp (dom (fst (run offline (handleManualSearch (page " Shimla " None)))))))
    = true.
Proof.
  assert (Hval : trim (citySearch_value (dom (page " Shimla " None))) <> "") by discriminate.
  split; [exact Hval |]. split; [reflexivity |].
  exact (proj1 (search_one_panel offline (page " Shimla " None) Hval)).
Defined.

Lemma click_day_row_selects_witness :
  weatherData shown_page = Some (Payload sample_data) /\
  main_view (dom (click_day_row 1 (reading "2024-05-01T22:30") shown_page))
    = renderMainView sample_data 1 (reading "2024-05-01T22:30") /\
  map row_background (dailyWrapper (dom (click_day_row 1 (reading "2024-05-01T22:30") shown_page)))
    = ["rgba(255,255,255,0.4)"; "rgba(255,255,255,0.9)"].
Proof.
  assert (Hdata : weatherData shown_page = Some (Payload sample_data)) by reflexivity.
  split; [exact Hdata |]. split; [| reflexivity].
  exact (proj1 (click_day_row_selects 1 (reading "2024-05-01T22:30") shown_page sample_data Hdata)).
Defined.

Lemma header_stays_synced_witness :
  header_synced shown_page /\
  header_synced (click_day_row 1 (reading "2024-05-01T22:30") shown_page) /\
  header_synced (fst (run forecast_down (handleManualSearch shown_page))).
Proof.
  assert (Hsync : header_synced shown_page) by reflexivity.
  split; [exact Hsync |].
  destruct (header_stays_synced shown_page Hsync) as (Hsearch & _ & Hday & _).
  split; [apply Hday | apply Hsearch]. intros data rest _. discriminate.
Defined.

Lemma initApp_without_position_witness :
  (true = false \/ position denied = None) /\
  statusText (dom (fst (run_startup denied (initApp true (page "" None)))))
    = "Location denied. Please search manually." /\
  snd (run_startup denied (initApp true (page "" None))) = [AskedPosition].
Proof.
  assert (Hcase : true = false \/ position denied = None) by now right.
  split; [exact Hcase |].
  destruct (initApp_without_position denied true (page "" None) Hcase) as (Hsent & Hstatus & _).
  split; [exact Hstatus | exact Hsent].
Defined.

Lemma initApp_with_position_witness :
  position at_sea = Some {| latitude := 105 # 10; longitude := 72 # 1 |} /\
  weatherData (fst (run_startup at_sea (initApp true (page "" None))))
    = Some (Payload {| forecast := sample_forecast; cityName := "My Location" |}).
Proof.
  assert (Hpos : position at_sea = Some {| latitude := 105 # 10; longitude := 72 # 1 |})
    by reflexivity.
  split; [exact Hpos |].
  destruct (initApp_with_position at_sea (page "" None) _ Hpos) as (_ & _ & Hfetched & _).
  exact (proj1 (Hfetched sample_forecast eq_refl)).
Defined.

Lemma hour_label_collision_witness :
  0 <= 0 /\ 0 < 12 /\ 12 <= 23 /\ hour_label (Some 0) = hour_label (Some 12).
Proof.
  assert (H0 : 0 <= 0) by lia. assert (Hlt : 0 < 12) by lia. assert (H23 : 12 <= 23) by lia.
  split; [exact H0 |]. split; [exact Hlt |]. split; [exact H23 |].
  apply (proj2 (hour_label_collision 0 12 H0 Hlt H23)). now split.
Defined.
